(** * The select panel of react-multi-select-component

    A shallow embedding of the select-panel component (the panel that drops
    down: search box, select-all row, option rows) and of the properties its
    specification states about bulk selection, filtering, option creation and
    keyboard focus.

    JavaScript arrays are lists, strings are [string], the optional fields of
    an option are [option bool] read through JavaScript truthiness, and the
    React state of the panel is a record that the handlers transform. *)

From Stdlib Require Import ZArith NArith Ascii String.
From stdpp Require Import base decidable list strings gmap.

Local Open Scope Z_scope.
Local Open Scope string_scope.
Local Open Scope list_scope.

(** ** JavaScript array methods used by the panel *)

Module Array.

Definition filter {A} (f : A → bool) (l : list A) : list A := List.filter f l.

Definition map {A B} (f : A → B) (l : list A) : list B := List.map f l.

(** [l.includes(x)] *)
Definition includes `{EqDecision A} (l : list A) (x : A) : bool :=
  bool_decide (x ∈ l).

(** [l.some(f)] *)
Definition some {A} (f : A → bool) (l : list A) : bool := existsb f l.

(** [l.every(f)] *)
Definition every {A} (f : A → bool) (l : list A) : bool := forallb f l.

(** [l.findIndex(f)]: the index of the first element satisfying [f],
    and [-1] when there is none. *)
Fixpoint findIndexFrom {A} (f : A → bool) (l : list A) (i : Z) : Z :=
  match l with
  | [] => -1
  | x :: l' => if f x then i else findIndexFrom f l' (i + 1)
  end.

Definition findIndex {A} (f : A → bool) (l : list A) : Z := findIndexFrom f l 0.

End Array.

(** ** Options *)

Module Opt.

(** [{ label, value, disabled?, __isNew__? }] *)
Record t := mk {
  label : string;
  value : string;
  disabled : option bool;
  __isNew__ : option bool;
}.

#[export] Instance eq_dec : EqDecision t.
Proof. solve_decision. Defined.

End Opt.

Abbreviation Option := Opt.t.

(** Truthiness of an optional boolean field: [undefined] is falsy. *)
Definition truthy (b : option bool) : bool := default false b.

(** Truthiness of an optional callback: a function is truthy, [undefined] is not. *)
Definition supplied {A} (f : option A) : bool :=
  match f with Some _ => true | None => false end.

Definition values (l : list Option) : list string := Array.map Opt.value l.

(** The outcome of awaiting a promise. *)
Inductive Settled (A : Type) :=
  | Fulfilled (a : A)
  | Rejected (reason : string).
Arguments Fulfilled {A} a.
Arguments Rejected {A} reason.

(** ** What the panel reads from the multi-select context, and its own state *)

Record MultiSelect := {
  options : list Option;
  value : list Option;
  customFilterOptions : option (list Option → string → Settled (list Option));
  disableSearch : bool;
  hasSelectAll : bool;
  isCreatable : bool;
  onCreateOption : option (string → Settled Option);
}.

Record State := {
  searchText : string;
  filteredOptions : list Option;
  searchTextForFilter : string;
  focusIndex : Z;
}.

(** ** Bulk selection *)

Definition selectable (o : Option) : bool := negb (truthy (Opt.disabled o)).

Definition selectAllValues (c : MultiSelect) (s : State) (checked : bool) : list Option :=
  let filteredValues :=
    Array.map Opt.value (Array.filter selectable (filteredOptions s)) in
  if checked then
    let selectedValues := Array.map Opt.value (value c) in
    let finalSelectedValues := selectedValues ++ filteredValues in
    Array.filter (λ o, Array.includes finalSelectedValues (Opt.value o))
      (if supplied (customFilterOptions c) then filteredOptions s else options c)
  else
    Array.filter (λ o, negb (Array.includes filteredValues (Opt.value o))) (value c).

(** The list the checked branch materialises the selection from. *)
Definition selectionSource (c : MultiSelect) (s : State) : list Option :=
  if supplied (customFilterOptions c) then filteredOptions s else options c.

(** The values of the visible options that are not disabled. *)
Definition visibleSelectable (s : State) : list string :=
  values (Array.filter selectable (filteredOptions s)).

(** ** JavaScript string methods used by the filter *)

Module Str.

(** Truthiness of a string: only the empty string is falsy. *)
Definition nonEmpty (s : string) : bool :=
  match s with EmptyString => false | String _ _ => true end.

(** [s.startsWith(q)] *)
Fixpoint startsWith (s q : string) : bool :=
  match q, s with
  | EmptyString, _ => true
  | String _ _, EmptyString => false
  | String b q', String a s' => bool_decide (a = b) && startsWith s' q'
  end.

(** [s.includes(q)]: [q] occurs in [s] as a contiguous substring. *)
Fixpoint includes (s q : string) : bool :=
  startsWith s q ||
  match s with
  | EmptyString => false
  | String _ s' => includes s' q
  end.

(** Case folding of one ASCII character: the letters [A]-[Z] move to
    [a]-[z], every other character is left as it is. *)
Definition lowerChar (a : ascii) : ascii :=
  let n := N_of_ascii a in
  if (65 <=? n)%N && (n <=? 90)%N then ascii_of_N (n + 32) else a.

(** [s.toLowerCase()] on ASCII text.  A [string] is a sequence of bytes and
    only the ASCII letters are folded, which is what JavaScript does to a
    string of ASCII characters; it also folds letters outside ASCII, which
    this function leaves alone.  Statements that say what the folding does
    are therefore made about ASCII text ([isAscii]). *)
Fixpoint toLowerCase (s : string) : string :=
  match s with
  | EmptyString => EmptyString
  | String a s' => String (lowerChar a) (toLowerCase s')
  end.


End Str.




(** ** Filtering *)

(** Modelled from the spec: [filterOptions] of [lib/simple-match-utils], which
    the panel imports as its default filter, is not among the sources.  The
    specification gives its contract: an empty query returns the candidates
    unchanged; otherwise an option is kept iff its label, normalised to a
    common case, contains the query normalised to the same case as a
    substring. *)
Definition filterOptions (options : list Option) (filter : string) : list Option :=
  if Str.nonEmpty filter then
    Array.filter
      (λ o, Str.includes (Str.toLowerCase (Opt.label o)) (Str.toLowerCase filter))
      options
  else options.

(** [getFilteredOptions]: the replacement filter when one is supplied, used
    verbatim, and the default filter otherwise.  A replacement that throws
    inside this [async] function rejects the promise it returns. *)
Definition getFilteredOptions (c : MultiSelect) (s : State) : Settled (list Option) :=
  match customFilterOptions c with
  | Some custom => custom (options c) (searchTextForFilter s)
  | None => Fulfilled (filterOptions (options c) (searchTextForFilter s))
  end.

(** ** The select-all checkbox *)

Definition allSelectedMemo (c : MultiSelect) (s : State) : bool * bool :=
  let filteredOptionsList := Array.filter selectable (filteredOptions s) in
  (Array.every
     (λ o, negb (Array.findIndex
                   (λ v, bool_decide (Opt.value v = Opt.value o)) (value c) =? -1)%Z)
     filteredOptionsList,
   negb (Z.of_nat (length filteredOptionsList) =? 0)%Z).

Definition isAllOptionSelected (c : MultiSelect) (s : State) : bool :=
  fst (allSelectedMemo c s).

Definition hasSelectableOptions (c : MultiSelect) (s : State) : bool :=
  snd (allSelectedMemo c s).

(** ** State setters *)

Definition setSearchText (q : string) (s : State) : State :=
  {| searchText := q; filteredOptions := filteredOptions s;
     searchTextForFilter := searchTextForFilter s; focusIndex := focusIndex s |}.

Definition setSearchTextForFilter (q : string) (s : State) : State :=
  {| searchText := searchText s; filteredOptions := filteredOptions s;
     searchTextForFilter := q; focusIndex := focusIndex s |}.

Definition setFilteredOptions (r : list Option) (s : State) : State :=
  {| searchText := searchText s; filteredOptions := r;
     searchTextForFilter := searchTextForFilter s; focusIndex := focusIndex s |}.

Definition setFocusIndex (i : Z) (s : State) : State :=
  {| searchText := searchText s; filteredOptions := filteredOptions s;
     searchTextForFilter := searchTextForFilter s; focusIndex := i |}.

(** [setOptions] of the context. *)
Definition setOptions (l : list Option) (c : MultiSelect) : MultiSelect :=
  {| options := l; value := value c; customFilterOptions := customFilterOptions c;
     disableSearch := disableSearch c; hasSelectAll := hasSelectAll c;
     isCreatable := isCreatable c; onCreateOption := onCreateOption c |}.

(** [onChange] hands the new selection to the host, which owns it and passes
    it back as [value]. *)
Definition onChange (l : list Option) (c : MultiSelect) : MultiSelect :=
  {| options := options c; value := l; customFilterOptions := customFilterOptions c;
     disableSearch := disableSearch c; hasSelectAll := hasSelectAll c;
     isCreatable := isCreatable c; onCreateOption := onCreateOption c |}.

(** ** Bulk selection, reported to the host *)

Definition selectAllChanged (c : MultiSelect) (s : State) (checked : bool) : MultiSelect :=
  let newOptions := selectAllValues c s checked in
  onChange newOptions c.

(** ** Keyboard focus *)

Definition skipIndex (c : MultiSelect) : Z :=
  let start := 0 in
  let start := if negb (disableSearch c) then start + 1 else start in
  let start := if hasSelectAll c then start + 1 else start in
  start.

Definition updateFocus (c : MultiSelect) (s : State) (offset : Z) : State :=
  let newFocus := focusIndex s + offset in
  let newFocus := Z.max 0 newFocus in
  let newFocus :=
    Z.min newFocus (Z.of_nat (length (options c)) + Z.max (skipIndex c - 1) 0) in
  setFocusIndex newFocus s.

(** ** Creating an option *)

(** [enum FocusType] *)
Definition FocusType_SEARCH : Z := 0.
Definition FocusType_NONE : Z := -1.

(** The [onFocus] handler of the search input. *)
Definition handleSearchFocus (s : State) : State := setFocusIndex FocusType_SEARCH s.

(** [handleClear]: both query states are emptied and the search input is
    focused; the focus event of the input runs [handleSearchFocus].  The
    handler is reachable only while the search input is rendered (from its
    clear button and from the create row), and the focus is then on the
    element that was clicked or on the create row. *)
Definition handleClear (s : State) : State :=
  handleSearchFocus (setSearchText "" (setSearchTextForFilter "" s)).

Definition handleOnCreateOption (c : MultiSelect) (s : State) : Settled (MultiSelect * State) :=
  let newOption :=
    {| Opt.label := searchText s; Opt.value := searchText s;
       Opt.disabled := None; Opt.__isNew__ := Some true |} in
  let finish (newOption : Option) :=
    Fulfilled (onChange (value c ++ [newOption]) (setOptions (newOption :: options c) c),
               handleClear s) in
  match onCreateOption c with
  | Some create =>
      match create (searchText s) with
      | Fulfilled created => finish created
      | Rejected reason => Rejected reason
      end
  | None => finish newOption
  end.

Definition showCreatable (c : MultiSelect) (s : State) : bool :=
  isCreatable c && Str.nonEmpty (searchText s) &&
  negb (Array.some (λ e, bool_decide (Opt.value e = searchText s)) (filteredOptions s)).

(** ** What the panel renders *)

(** The body of the options list. *)
Inductive OptionsBody :=
  | SelectList (rows : list Option)
  | Creatable (text : string)
  | NoOptions.

Definition optionsBody (c : MultiSelect) (s : State) : OptionsBody :=
  if negb (Z.of_nat (length (filteredOptions s)) =? 0)%Z then SelectList (filteredOptions s)
  else if showCreatable c s then Creatable (searchText s)
  else NoOptions.

Definition createAffordanceShown (c : MultiSelect) (s : State) : bool :=
  match optionsBody c s with Creatable _ => true | _ => false end.

Definition searchRowShown (c : MultiSelect) : bool := negb (disableSearch c).

Definition selectAllRowShown (c : MultiSelect) (s : State) : bool :=
  hasSelectAll c && hasSelectableOptions c s.

(** The rows a focus index can point at: the search box, the select-all row
    and the visible options. *)
Definition visibleRowCount (c : MultiSelect) (s : State) : Z :=
  (if searchRowShown c then 1 else 0) +
  (if selectAllRowShown c s then 1 else 0) +
  Z.of_nat (length (filteredOptions s)).

(** ** The filter effect *)

(** [promise.then(onFulfilled)] with a state setter as callback and no
    rejection handler: a fulfilled promise runs the setter; a rejected one
    leaves the state alone and rejects the promise that [then] returns. *)
Definition thenSet {A} (promise : Settled A) (onFulfilled : A → State → State)
    (s : State) : State * Settled unit :=
  match promise with
  | Fulfilled a => (onFulfilled a s, Fulfilled tt)
  | Rejected reason => (s, Rejected reason)
  end.

(** The body of the effect on [searchTextForFilter] and [options], run until
    its promise has settled: [getFilteredOptions().then(setFilteredOptions)].
    The second component is the promise the chain ends in; the effect drops
    it, so a rejection there has no handler. *)
Definition filterEffect (c : MultiSelect) (s : State) : State * Settled unit :=
  thenSet (getFilteredOptions c s) setFilteredOptions s.

(** ** The panel over time *)

(** The panel between events.  [inflight] holds the promises of
    [getFilteredOptions] that have not settled yet, oldest first; the number
    paired with each is the order in which it was issued and is bookkeeping of
    the model only: the code keeps no such number.  [unhandled] collects the
    reasons of rejected promise chains. *)
Record Panel := {
  local : State;
  debounced : option string;
  inflight : list (nat * Settled (list Option));
  issued : nat;
  unhandled : list string;
}.

Inductive Event :=
  | KeyTyped (text : string)
  | DebounceElapsed
  | ClearClicked
  | ResponseArrived (id : nat).

(** Takes the request numbered [id] out of the requests in flight. *)
Fixpoint takeRequest (id : nat) (l : list (nat * Settled (list Option)))
    : option (Settled (list Option) * list (nat * Settled (list Option))) :=
  match l with
  | [] => None
  | (n, promise) :: l' =>
      if bool_decide (n = id) then Some (promise, l')
      else match takeRequest id l' with
           | Some (found, rest) => Some (found, (n, promise) :: rest)
           | None => None
           end
  end.

(** A settled promise runs its [then] callback. *)
Definition settle (promise : Settled (list Option)) (p : Panel)
    (rest : list (nat * Settled (list Option))) : Panel :=
  let (s', chain) := thenSet promise setFilteredOptions (local p) in
  {| local := s'; debounced := debounced p; inflight := rest; issued := issued p;
     unhandled := match chain with
                  | Fulfilled _ => unhandled p
                  | Rejected reason => unhandled p ++ [reason]
                  end |}.

(** One run of the filter effect.  The default filter awaits nothing, so its
    promise settles before any other event is handled; the promise of a
    replacement filter settles when the host's function lets it. *)
Definition runFilterEffect (c : MultiSelect) (p : Panel) : Panel :=
  let promise := getFilteredOptions c (local p) in
  let p' := {| local := local p; debounced := debounced p; inflight := inflight p;
               issued := S (issued p); unhandled := unhandled p |} in
  if supplied (customFilterOptions c)
  then {| local := local p'; debounced := debounced p';
          inflight := inflight p' ++ [(issued p, promise)];
          issued := issued p'; unhandled := unhandled p' |}
  else settle promise p' (inflight p').

(** A state update of [searchTextForFilter]; the effect runs when the value
    has changed. *)
Definition applyQuery (c : MultiSelect) (q : string) (p : Panel) : Panel :=
  if bool_decide (q = searchTextForFilter (local p)) then p
  else runFilterEffect c
         {| local := setSearchTextForFilter q (local p); debounced := debounced p;
            inflight := inflight p; issued := issued p; unhandled := unhandled p |}.

(** The panel after its first render and the first run of the effect. *)
Definition mount (c : MultiSelect) : Panel :=
  runFilterEffect c
    {| local := {| searchText := ""; filteredOptions := options c;
                   searchTextForFilter := ""; focusIndex := 0 |};
       debounced := None; inflight := []; issued := 0; unhandled := [] |}.

(** Modelled from the spec: [debounce] of [lib/debounce] is not among the
    sources.  The specification has the typed text echoed at once and the
    filtering deferred until no keystroke has arrived within the quiescence
    window, a burst of keystrokes being coalesced into one filter pass: the
    model keeps the last text handed to [debouncedSearch] in [debounced] and
    delivers it when [DebounceElapsed] occurs. *)
Definition debouncedSearch (q : string) (p : Panel) : Panel :=
  {| local := local p; debounced := Some q; inflight := inflight p;
     issued := issued p; unhandled := unhandled p |}.

Definition withLocal (f : State → State) (p : Panel) : Panel :=
  {| local := f (local p); debounced := debounced p; inflight := inflight p;
     issued := issued p; unhandled := unhandled p |}.

(** [handleSearchChange] *)
Definition handleSearchChange (text : string) (p : Panel) : Panel :=
  withLocal (setFocusIndex 0) (withLocal (setSearchText text) (debouncedSearch text p)).

Definition step (c : MultiSelect) (p : Panel) (e : Event) : Panel :=
  match e with
  | KeyTyped text => handleSearchChange text p
  | DebounceElapsed =>
      match debounced p with
      | Some q =>
          applyQuery c q
            {| local := local p; debounced := None; inflight := inflight p;
               issued := issued p; unhandled := unhandled p |}
      | None => p
      end
  | ClearClicked =>
      withLocal handleSearchFocus (withLocal (setSearchText "") (applyQuery c "" p))
  | ResponseArrived id =>
      match takeRequest id (inflight p) with
      | Some (promise, rest) => settle promise p rest
      | None => p
      end
  end.

Definition run (c : MultiSelect) (p : Panel) (events : list Event) : Panel :=
  fold_left (step c) events p.

(** The requests whose result was applied to the visible list although a newer
    request had been issued by then. *)
Fixpoint supersededUpdates (c : MultiSelect) (p : Panel) (events : list Event) : list nat :=
  match events with
  | [] => []
  | e :: events' =>
      let here :=
        match e with
        | ResponseArrived id =>
            match takeRequest id (inflight p) with
            | Some (Fulfilled _, _) =>
                if bool_decide (S id < issued p)%nat then [id] else []
            | _ => []
            end
        | _ => []
        end in
      here ++ supersededUpdates c (step c p e) events'
  end.

(** Responses arrive in the order the requests were issued: every
    [ResponseArrived] is for the oldest request in flight. *)
Fixpoint inOrder (c : MultiSelect) (p : Panel) (events : list Event) : bool :=
  match events with
  | [] => true
  | e :: events' =>
      match e with
      | ResponseArrived id =>
          match inflight p with
          | (oldest, _) :: _ => bool_decide (id = oldest)
          | [] => false
          end
      | _ => true
      end && inOrder c (step c p e) events'
  end.

(** With the default filter no request is in flight between events and the
    view is the result for the current query. *)
Definition upToDate (c : MultiSelect) (p : Panel) : Prop :=
  inflight p = [] ∧
  filteredOptions (local p) = filterOptions (options c) (searchTextForFilter (local p)).

(** The newest request in flight is the one for the current query; when
    nothing is in flight, the view shows what that request fulfilled with. *)
Definition newestIsCurrent (c : MultiSelect) (p : Panel) : Prop :=
  match last (inflight p) with
  | Some (_, promise) => promise = getFilteredOptions c (local p)
  | None => ∀ r, getFilteredOptions c (local p) = Fulfilled r →
                 filteredOptions (local p) = r
  end.

(** The reading of "the query matches an option's label or value" used to
    state the claim about the create affordance: the query occurs, case
    ignored, in the label or in the value. *)
Definition queryMatches (q : string) (o : Option) : bool :=
  Str.includes (Str.toLowerCase (Opt.label o)) (Str.toLowerCase q) ||
  Str.includes (Str.toLowerCase (Opt.value o)) (Str.toLowerCase q).

(** ** Sample data used in the worked examples *)

Module Sample.

Definition optA : Option := Opt.mk "A" "a" None None.
Definition optB : Option := Opt.mk "B" "b" (Some true) None.
Definition optC : Option := Opt.mk "C" "c" None None.

(** A replacement filter that keeps the options whose value is the query. *)
Definition byValue (opts : list Option) (q : string) : Settled (list Option) :=
  Fulfilled (Array.filter (λ o, bool_decide (Opt.value o = q)) opts).

Definition ctx (opts sel : list Option)
    (custom : option (list Option → string → Settled (list Option))) : MultiSelect :=
  {| options := opts; value := sel; customFilterOptions := custom;
     disableSearch := false; hasSelectAll := true; isCreatable := false;
     onCreateOption := None |}.

Definition view (q : string) (visible : list Option) : State :=
  {| searchText := q; filteredOptions := visible; searchTextForFilter := q;
     focusIndex := 0 |}.

End Sample.

(** Panels used in the focus and creation examples. *)
Module SampleFocus.

(** Search disabled, no select-all row, one candidate, all of it visible. *)
Definition bare : MultiSelect :=
  {| options := [Sample.optA]; value := []; customFilterOptions := None;
     disableSearch := true; hasSelectAll := false; isCreatable := false;
     onCreateOption := None |}.

Definition bareView : State :=
  {| searchText := ""; filteredOptions := [Sample.optA];
     searchTextForFilter := ""; focusIndex := 0 |}.

(** Search enabled, three candidates, the query "c" leaves one visible. *)
Definition searching : MultiSelect :=
  {| options := [Sample.optA; Sample.optB; Sample.optC]; value := [];
     customFilterOptions := None; disableSearch := false; hasSelectAll := false;
     isCreatable := false; onCreateOption := None |}.

Definition searchingView : State :=
  {| searchText := "c"; filteredOptions := [Sample.optC];
     searchTextForFilter := "c"; focusIndex := 1 |}.

End SampleFocus.

Module SampleCreate.

Definition creatable : MultiSelect :=
  {| options := [Sample.optA]; value := []; customFilterOptions := None;
     disableSearch := false; hasSelectAll := true; isCreatable := true;
     onCreateOption := None |}.

(** A replacement filter that leaves the matching to the host's server and
    returns every candidate it is given. *)
Definition unfiltered (opts : list Option) (q : string) : Settled (list Option) :=
  Fulfilled opts.

Definition creatableRemote : MultiSelect :=
  {| options := [Sample.optA]; value := []; customFilterOptions := Some unfiltered;
     disableSearch := false; hasSelectAll := true; isCreatable := true;
     onCreateOption := None |}.

Definition typed (q : string) (visible : list Option) (applied : string) : State :=
  {| searchText := q; filteredOptions := visible; searchTextForFilter := applied;
     focusIndex := 0 |}.

End SampleCreate.

Module SampleAsync.

(** A replacement filter that always fails. *)
Definition failing (opts : list Option) (q : string) : Settled (list Option) :=
  Rejected "filter failed".

Definition broken : MultiSelect :=
  Sample.ctx [Sample.optA; Sample.optC] [] (Some failing).

Definition remote : MultiSelect :=
  Sample.ctx [Sample.optA; Sample.optC] [] (Some Sample.byValue).

(** The user types "a", pauses, replaces it by "c", pauses; the response for
    "c" arrives before the response for "a". *)
Definition overtaken : list Event :=
  [ResponseArrived 0; KeyTyped "a"; DebounceElapsed; KeyTyped "c"; DebounceElapsed;
   ResponseArrived 2; ResponseArrived 1].

End SampleAsync.

(** ** Keys *)

(** The members of [KEY] that the components refer to.  [KEY] lives in
    [lib/constants], which is not among the sources, so the codes are taken
    as a parameter; [domKeys] gives the [code] values browsers report for
    these keys. *)
Record Keys := {
  ARROW_DOWN : string;
  ARROW_UP : string;
  ENTER : string;
  ESCAPE : string;
  SPACE : string;
}.

Definition domKeys : Keys :=
  {| ARROW_DOWN := "ArrowDown"; ARROW_UP := "ArrowUp"; ENTER := "Enter";
     ESCAPE := "Escape"; SPACE := "Space" |}.

(** ** The remaining handlers of the panel *)

Definition handleItemClicked (index : Z) (s : State) : State := setFocusIndex index s.

(** Arrow-key navigation.  The boolean tells whether the handler went on to
    [e.stopPropagation()] and [e.preventDefault()]. *)
Definition handleKeyDown (KEY : Keys) (c : MultiSelect) (s : State) (code : string)
    : State * bool :=
  if bool_decide (code = ARROW_UP KEY) then (updateFocus c s (-1), true)
  else if bool_decide (code = ARROW_DOWN KEY) then (updateFocus c s 1, true)
  else (s, false).

(** The upper limit [updateFocus] clamps to. *)
Definition focusLimit (c : MultiSelect) : Z :=
  Z.of_nat (length (options c)) + Z.max (skipIndex c - 1) 0.

(** The [tabIndex] of the select-all row. *)
Definition selectAllTabIndex (c : MultiSelect) : Z :=
  if (skipIndex c =? 1)%Z then 0 else 1.

(** The click handler of the select-all row: [handleItemClicked(1)]. *)
Definition selectAllClicked (s : State) : State := handleItemClicked 1 s.

(** ** The dropdown *)

Module Dropdown.

(** [ClearSelectedIcon]: not given, [null], or a node to render. *)
Inductive Icon := IconUndefined | IconNull | IconNode.

(** What the dropdown reads from the multi-select context besides the
    selection and [onChange]. *)
Record Props := {
  shouldToggleOnHover : bool;
  isLoading : bool;
  disabled : bool;
  isOpen : option bool;
  defaultIsOpen : option bool;
  ClearSelectedIcon : Icon;
  closeOnChangedValue : bool;
}.

Record State := {
  isInternalExpand : bool;
  expanded : option bool;
  hasFocus : bool;
}.

Definition setExpanded (b : option bool) (st : State) : State :=
  {| isInternalExpand := isInternalExpand st; expanded := b; hasFocus := hasFocus st |}.

Definition setHasFocus (b : bool) (st : State) : State :=
  {| isInternalExpand := isInternalExpand st; expanded := expanded st; hasFocus := b |}.

Definition setIsInternalExpand (b : bool) (st : State) : State :=
  {| isInternalExpand := b; expanded := expanded st; hasFocus := hasFocus st |}.

(** The initial values of the three [useState] hooks. *)
Definition initial (d : Props) : State :=
  {| isInternalExpand := true; expanded := defaultIsOpen d; hasFocus := false |}.

(** The effect on [value]. *)
Definition valueEffect (d : Props) (st : State) : State :=
  if closeOnChangedValue d then setExpanded (Some false) st else st.

(** The effect on [isOpen] and [defaultIsOpen]. *)
Definition openEffect (d : Props) (st : State) : State :=
  match defaultIsOpen d, isOpen d with
  | None, Some b => setExpanded (Some b) (setIsInternalExpand false st)
  | _, _ => st
  end.

Definition handleFocus (st : State) : State :=
  if negb (hasFocus st) then setHasFocus true st else st.

(** The select panel is rendered. *)
Definition panelShown (st : State) : bool := truthy (expanded st).

(** The focus effect of the select panel, seen from the dropdown: a panel
    that is rendered focuses the row its focus index points at, and the focus
    event reaches the [onFocus] handler of the dropdown.  [focused] tells
    whether there was such a row and it took the focus. *)
Definition panelFocus (focused : bool) (st : State) : State :=
  if panelShown st && focused then handleFocus st else st.

(** The dropdown after its first render.  A panel rendered in the first pass
    runs its focus effect before the effects of the dropdown, which run in
    the order they are declared; a panel that the effects have made appear
    runs its focus effect after them. *)
Definition mount (d : Props) (focused : bool) : State :=
  panelFocus focused (openEffect d (valueEffect d (panelFocus focused (initial d)))).

(** A key event: the [type] of its target, if the target has one, and the
    [code] of the key. *)
Record KeyEvent := {
  targetType : option string;
  code : string;
}.

Definition typeIn (types : list string) (t : option string) : bool :=
  match t with Some ty => Array.includes types ty | None => false end.

(** [handleKeyDown]; the boolean tells whether [e.preventDefault()] was
    reached. *)
Definition handleKeyDown (KEY : Keys) (st : State) (e : KeyEvent) : State * bool :=
  if typeIn ["text"; "button"] (targetType e) &&
     Array.includes [SPACE KEY; ENTER KEY] (code e)
  then (st, false)
  else
    ((if isInternalExpand st then
        if bool_decide (code e = ESCAPE KEY) then setExpanded (Some false) st
        else setExpanded (Some true) st
      else st),
     true).

Definition handleHover (d : Props) (st : State) (isExpanded : bool) : State :=
  if isInternalExpand st && shouldToggleOnHover d
  then setExpanded (Some isExpanded) st else st.

(** [handleBlur]; [inside] tells whether the element receiving the focus lies
    within the dropdown ([e.currentTarget.contains(e.relatedTarget)]). *)
Definition handleBlur (st : State) (inside : bool) : State :=
  if negb inside && isInternalExpand st
  then setExpanded (Some false) (setHasFocus false st) else st.

Definition handleMouseEnter (d : Props) (st : State) : State := handleHover d st true.

Definition handleMouseLeave (d : Props) (st : State) : State := handleHover d st false.

Definition toggleExpanded (d : Props) (st : State) : State :=
  if isInternalExpand st
  then setExpanded
         (Some (if isLoading d || disabled d then false else negb (truthy (expanded st)))) st
  else st.

Definition handleClearSelected (c : MultiSelect) (st : State) : MultiSelect * State :=
  (onChange [] c, if isInternalExpand st then setExpanded (Some false) st else st).

(** The clear button of the heading is rendered. *)
Definition clearButtonShown (c : MultiSelect) (d : Props) : bool :=
  (0 <? Z.of_nat (length (value c)))%Z &&
  negb (match ClearSelectedIcon d with IconNull => true | _ => false end).

(** The codes [useKey] registers [handleKeyDown] for.  [useKey] lives in
    [hooks/use-key], which is not among the sources; it is taken to call the
    handler for a key event on the dropdown whose code is one of these, and
    for no other key. *)
Definition registeredKeys (KEY : Keys) : list string :=
  [ENTER KEY; ARROW_DOWN KEY; SPACE KEY; ESCAPE KEY].

(** A key event on the dropdown. *)
Definition keyDown (KEY : Keys) (st : State) (e : KeyEvent) : State * bool :=
  if Array.includes (registeredKeys KEY) (code e) then handleKeyDown KEY st e
  else (st, false).

(** A click on the clear button: the handler runs, and since the selection
    handed to the host is a new array, the effect on [value] runs after it. *)
Definition clearClicked (c : MultiSelect) (d : Props) (st : State)
    : MultiSelect * State :=
  let (c', st') := handleClearSelected c st in
  (c', valueEffect d st').

(** What the user can do to the dropdown.  A click on the clear button is
    possible while the button is rendered and enabled. *)
Inductive Event :=
  | KeyDown (e : KeyEvent)
  | MouseEnter
  | MouseLeave
  | Focus
  | Blur (inside : bool)
  | HeadingClicked
  | ClearClicked.

Definition step (KEY : Keys) (d : Props) (cs : MultiSelect * State) (e : Event)
    : MultiSelect * State :=
  let (c, st) := cs in
  match e with
  | KeyDown k => (c, fst (keyDown KEY st k))
  | MouseEnter => (c, handleMouseEnter d st)
  | MouseLeave => (c, handleMouseLeave d st)
  | Focus => (c, handleFocus st)
  | Blur inside => (c, handleBlur st inside)
  | HeadingClicked => (c, toggleExpanded d st)
  | ClearClicked =>
      if clearButtonShown c d && negb (disabled d) then clearClicked c d st
      else (c, st)
  end.

Definition run (KEY : Keys) (d : Props) (cs : MultiSelect * State) (events : list Event)
    : MultiSelect * State :=
  fold_left (step KEY d) events cs.

(** Sample configurations. *)
Definition uncontrolled : Props :=
  {| shouldToggleOnHover := true; isLoading := false; disabled := false;
     isOpen := None; defaultIsOpen := Some true; ClearSelectedIcon := IconUndefined;
     closeOnChangedValue := false |}.

Definition controlled (open : bool) : Props :=
  {| shouldToggleOnHover := true; isLoading := false; disabled := false;
     isOpen := Some open; defaultIsOpen := None; ClearSelectedIcon := IconUndefined;
     closeOnChangedValue := false |}.

Definition controlledClosing : Props :=
  {| shouldToggleOnHover := false; isLoading := false; disabled := false;
     isOpen := Some true; defaultIsOpen := None; ClearSelectedIcon := IconUndefined;
     closeOnChangedValue := true |}.

Definition closing : Props :=
  {| shouldToggleOnHover := false; isLoading := false; disabled := false;
     isOpen := None; defaultIsOpen := Some true; ClearSelectedIcon := IconUndefined;
     closeOnChangedValue := true |}.

Definition busy : Props :=
  {| shouldToggleOnHover := false; isLoading := true; disabled := false;
     isOpen := None; defaultIsOpen := None; ClearSelectedIcon := IconUndefined;
     closeOnChangedValue := false |}.

End Dropdown.

Module SampleCreator.

(** A replacement creator that stores the text under an identifier of its own. *)
Definition remoteCreate (q : string) : Settled Option :=
  Fulfilled (Opt.mk q ("id-" +:+ q) None None).

Definition failingCreate (q : string) : Settled Option := Rejected "creation failed".

Definition withCreator (create : string → Settled Option) : MultiSelect :=
  {| options := [Sample.optA]; value := [Sample.optA]; customFilterOptions := None;
     disableSearch := false; hasSelectAll := true; isCreatable := true;
     onCreateOption := Some create |}.

End SampleCreator.
(** * Properties *)

(** ** Array helpers *)

Section array_facts.
Context {A : Type}.
Implicit Types (f : A → bool) (l : list A).

Lemma elem_of_array_filter f l x : x ∈ Array.filter f l ↔ f x = true ∧ x ∈ l.
Proof.
  unfold Array.filter. rewrite !list_elem_of_In, filter_In. tauto.
Qed.

Lemma array_filter_sublist f l : Array.filter f l `sublist_of` l.
Proof.
  induction l as [|x l IH]; simpl; [constructor|].
  destruct (f x); by constructor.
Qed.

Lemma array_includes_true `{EqDecision A} l x :
  Array.includes l x = true ↔ x ∈ l.
Proof. unfold Array.includes. apply bool_decide_eq_true. Qed.

Lemma array_every_true f l :
  Array.every f l = true ↔ ∀ x, x ∈ l → f x = true.
Proof.
  unfold Array.every. rewrite forallb_forall.
  by setoid_rewrite list_elem_of_In.
Qed.

Lemma array_some_true f l :
  Array.some f l = true ↔ ∃ x, x ∈ l ∧ f x = true.
Proof.
  unfold Array.some. rewrite existsb_exists.
  by setoid_rewrite list_elem_of_In.
Qed.

Lemma findIndexFrom_found f l i :
  Array.findIndexFrom f l i ≠ -1 ∨ i < 0 ↔ (∃ x, x ∈ l ∧ f x = true) ∨ i < 0.
Proof.
  revert i. induction l as [|x l IH]; intros i; simpl.
  - split; intros [H|H]; auto; [done|].
    destruct H as (x & Hx & _). by apply elem_of_nil in Hx.
  - destruct (f x) eqn:Hfx.
    + split; intros _; destruct (decide (i < 0)); auto.
      * left. exists x. split; [left|done].
      * left. lia.
    + destruct (decide (i < 0)) as [Hi|Hi]; [tauto|].
      specialize (IH (i + 1)). split.
      * intros [H|H]; [|tauto].
        destruct IH as [IH _]. destruct IH as [(y & Hy & Hfy)|]; [tauto| |lia].
        left. exists y. split; [by right|done].
      * intros [(y & Hy & Hfy)|H]; [|tauto].
        apply elem_of_cons in Hy as [->|Hy]; [congruence|].
        destruct IH as [_ IH]. destruct IH as [|]; [left; eauto|tauto|lia].
Qed.

Lemma findIndex_found f l :
  Array.findIndex f l ≠ -1 ↔ ∃ x, x ∈ l ∧ f x = true.
Proof.
  unfold Array.findIndex. pose proof (findIndexFrom_found f l 0) as H.
  split.
  - intros Hne. destruct H as [H _]. destruct H; [tauto|done|lia].
  - intros Hex. destruct H as [_ H]. destruct H; [tauto|done|lia].
Qed.
End array_facts.

Lemma elem_of_values v l : v ∈ values l ↔ ∃ o, o ∈ l ∧ Opt.value o = v.
Proof.
  unfold values, Array.map. change (List.map Opt.value l) with (Opt.value <$> l).
  rewrite list_elem_of_fmap. naive_solver.
Qed.

Lemma elem_of_visibleSelectable v s :
  v ∈ visibleSelectable s ↔
  ∃ o, o ∈ filteredOptions s ∧ truthy (Opt.disabled o) = false ∧ Opt.value o = v.
Proof.
  unfold visibleSelectable. rewrite elem_of_values.
  setoid_rewrite elem_of_array_filter. unfold selectable.
  setoid_rewrite negb_true_iff. naive_solver.
Qed.

(** ** Bulk selection *)

Lemma elem_of_selectAllValues_checked c s o :
  o ∈ selectAllValues c s true ↔
  o ∈ selectionSource c s ∧
  (Opt.value o ∈ values (value c) ∨ Opt.value o ∈ visibleSelectable s).
Proof.
  unfold selectAllValues, selectionSource, visibleSelectable, values.
  rewrite elem_of_array_filter, array_includes_true, elem_of_app. tauto.
Qed.

Lemma elem_of_selectAllValues_unchecked c s o :
  o ∈ selectAllValues c s false ↔
  o ∈ value c ∧ Opt.value o ∉ visibleSelectable s.
Proof.
  unfold selectAllValues, visibleSelectable, values.
  rewrite elem_of_array_filter, negb_true_iff.
  rewrite <- not_true_iff_false, array_includes_true. tauto.
Qed.

Lemma visibleSelectable_visible v s :
  v ∈ visibleSelectable s → v ∈ values (filteredOptions s).
Proof.
  rewrite elem_of_visibleSelectable, elem_of_values. naive_solver.
Qed.

(** C1 (as amended). With [checked = true] the result consists of the options
    of the source list (the visible list when a replacement filter is
    supplied, the full candidate list otherwise), in the source's order,
    whose value is a value of the prior selection or of a visible option that
    is not disabled: its set of values is that union cut down to the values
    of the source.  When no replacement filter is supplied, a candidate whose
    value is not that of a visible non-disabled option (in particular one
    hidden by the filter) is in the result exactly when its value was selected
    before. *)
Theorem selectAllValues_checked_from_source (c : MultiSelect) (s : State) :
  selectAllValues c s true `sublist_of` selectionSource c s ∧
  (∀ o, o ∈ selectAllValues c s true ↔
        o ∈ selectionSource c s ∧
        (Opt.value o ∈ values (value c) ∨ Opt.value o ∈ visibleSelectable s)) ∧
  (list_to_set (values (selectAllValues c s true)) =@{gset string}
     (list_to_set (values (value c)) ∪ list_to_set (visibleSelectable s))
     ∩ list_to_set (values (selectionSource c s))) ∧
  (customFilterOptions c = None →
   ∀ o, o ∈ options c → Opt.value o ∉ visibleSelectable s →
        (o ∈ selectAllValues c s true ↔ Opt.value o ∈ values (value c))).
Proof.
  split; [apply array_filter_sublist|].
  split; [apply elem_of_selectAllValues_checked|].
  split.
  - apply set_eq. intros v.
    rewrite elem_of_intersection, elem_of_union, !elem_of_list_to_set.
    rewrite (elem_of_values v (selectAllValues c s true)).
    rewrite (elem_of_values v (selectionSource c s)).
    setoid_rewrite elem_of_selectAllValues_checked.
    split.
    + intros (o & (Hsrc & Hsel) & <-). split; [tauto|eauto].
    + intros (Hsel & o & Hsrc & <-). exists o. tauto.
  - intros Hdefault o Ho Hhidden.
    rewrite elem_of_selectAllValues_checked.
    unfold selectionSource. rewrite Hdefault. simpl. tauto.
Qed.

(** C1, counterexample.  With a replacement filter supplied, candidates
    [A; C], selection [A] and visible list [C], select-all returns [C] alone:
    [A], hidden by the filter and selected before, is no longer selected, so
    the values of the result are not the union. *)
Lemma selectAllValues_checked_loses_hidden :
  let c := Sample.ctx [Sample.optA; Sample.optC] [Sample.optA] (Some Sample.byValue) in
  let s := Sample.view "c" [Sample.optC] in
  Sample.byValue (options c) (searchTextForFilter s) = Fulfilled (filteredOptions s) ∧
  selectAllValues c s true = [Sample.optC] ∧
  Sample.optA ∈ value c ∧
  (Sample.optA ∉ filteredOptions s) ∧
  (Sample.optA ∉ selectAllValues c s true) ∧
  (list_to_set (values (selectAllValues c s true)) ≠@{gset string}
     list_to_set (values (value c)) ∪ list_to_set (visibleSelectable s)).
Proof.
  cbv zeta.
  assert (Hres : selectAllValues
            (Sample.ctx [Sample.optA; Sample.optC] [Sample.optA] (Some Sample.byValue))
            (Sample.view "c" [Sample.optC]) true = [Sample.optC]) by (by vm_compute).
  rewrite Hres. simpl.
  split; [by vm_compute|]. split; [done|].
  split; [by apply list_elem_of_singleton|].
  split; [by rewrite list_elem_of_singleton|].
  split; [by rewrite list_elem_of_singleton|].
  intros Heq.
  assert (Hin : "a" ∈@{gset string} {["c"]} ∪ ∅) by (rewrite Heq; set_solver).
  set_solver.
Qed.

(** C2 (as amended). With [checked = false] the result is the prior selection,
    in its order, without the options whose value is that of a visible option
    that is not disabled.  Every selected option whose value does not occur in
    the visible list is kept, whatever its own disabled flag. *)
Theorem selectAllValues_unchecked_removes_selectable (c : MultiSelect) (s : State) :
  selectAllValues c s false `sublist_of` value c ∧
  (∀ o, o ∈ selectAllValues c s false ↔
        o ∈ value c ∧ Opt.value o ∉ visibleSelectable s) ∧
  (∀ o, o ∈ value c → Opt.value o ∉ values (filteredOptions s) →
        o ∈ selectAllValues c s false).
Proof.
  split; [apply array_filter_sublist|].
  split; [apply elem_of_selectAllValues_unchecked|].
  intros o Ho Hout. apply elem_of_selectAllValues_unchecked.
  split; [done|]. intros Hin. by apply Hout, visibleSelectable_visible.
Qed.

(** C2, counterexample.  The selected option [B] is disabled and visible: its
    value appears in the visible set, yet deselect-all keeps it. *)
Lemma selectAllValues_unchecked_keeps_visible_disabled :
  let c := Sample.ctx [Sample.optA; Sample.optB] [Sample.optB] None in
  let s := Sample.view "" [Sample.optA; Sample.optB] in
  Opt.value Sample.optB ∈ values (filteredOptions s) ∧
  Sample.optB ∈ value c ∧
  selectAllValues c s false = [Sample.optB].
Proof.
  cbv zeta. split; [|split]; [| |by vm_compute].
  - apply elem_of_values. exists Sample.optB. split; [|done]. set_solver.
  - set_solver.
Qed.

(** The scenarios of the specification: over [A; B (disabled); C] with an
    empty query, select-all selects [A; C]; with [A] selected and the query
    "c", select-all gives [A; C] and deselect-all then gives [A] back. *)
Example bulk_selection_scenarios :
  let L := [Sample.optA; Sample.optB; Sample.optC] in
  filterOptions L "" = L ∧
  selectAllValues (Sample.ctx L [] None) (Sample.view "" L) true
    = [Sample.optA; Sample.optC] ∧
  filterOptions L "c" = [Sample.optC] ∧
  selectAllValues (Sample.ctx L [Sample.optA] None) (Sample.view "c" [Sample.optC]) true
    = [Sample.optA; Sample.optC] ∧
  value (selectAllChanged
           (selectAllChanged (Sample.ctx L [Sample.optA] None)
              (Sample.view "c" [Sample.optC]) true)
           (Sample.view "c" [Sample.optC]) false)
    = [Sample.optA].
Proof. by vm_compute. Qed.

(** C10. Without a replacement filter the selection returned by select-all is
    a subsequence of the candidate list, in the candidate list's order, and a
    previously selected option whose value does not occur in the candidate
    list is absent from it; the order of the prior selection is therefore not
    kept: from the selection [C; A] over the candidates [A; B; C] the result
    is [A; C]. *)
Theorem selectAllValues_checked_default_follows_candidates :
  (∀ (c : MultiSelect) (s : State),
     customFilterOptions c = None →
     selectAllValues c s true `sublist_of` options c ∧
     (∀ o, o ∈ value c → Opt.value o ∉ values (options c) →
           o ∉ selectAllValues c s true)) ∧
  (let c := Sample.ctx [Sample.optA; Sample.optB; Sample.optC]
              [Sample.optC; Sample.optA] None in
   let s := Sample.view "zzz" [] in
   customFilterOptions c = None ∧
   selectAllValues c s true = [Sample.optA; Sample.optC] ∧
   (∀ o, o ∈ value c ↔ o ∈ selectAllValues c s true)).
Proof.
  split.
  - intros c s Hdefault.
    pose proof (array_filter_sublist
      (λ o, Array.includes (values (value c) ++ visibleSelectable s) (Opt.value o))
      (selectionSource c s)) as Hsub.
    unfold selectionSource in Hsub. rewrite Hdefault in Hsub. simpl in Hsub.
    split.
    + unfold selectAllValues. rewrite Hdefault. simpl. exact Hsub.
    + intros o _ Hgone Hin. apply Hgone.
      apply elem_of_selectAllValues_checked in Hin as [Hsrc _].
      unfold selectionSource in Hsrc. rewrite Hdefault in Hsrc. simpl in Hsrc.
      apply elem_of_values. eauto.
  - cbv zeta. split; [done|]. split; [by vm_compute|].
    intros o. replace (selectAllValues _ _ true) with [Sample.optA; Sample.optC]
      by (by vm_compute).
    simpl. set_solver.
Qed.

(** C10, instance: one selected option is unknown to the candidate list. *)
Lemma selectAllValues_checked_default_follows_candidates_witness :
  let c := Sample.ctx [Sample.optA; Sample.optB] [Sample.optC; Sample.optA] None in
  let s := Sample.view "" [Sample.optA; Sample.optB] in
  selectAllValues c s true `sublist_of` options c ∧
  (∀ o, o ∈ value c → Opt.value o ∉ values (options c) →
        o ∉ selectAllValues c s true).
Proof.
  exact (proj1 selectAllValues_checked_default_follows_candidates
           (Sample.ctx [Sample.optA; Sample.optB] [Sample.optC; Sample.optA] None)
           (Sample.view "" [Sample.optA; Sample.optB]) eq_refl).
Defined.

(** ** Strings *)




Lemma nonEmpty_false s : Str.nonEmpty s = false ↔ s = "".
Proof. by destruct s. Qed.

Lemma nonEmpty_true s : Str.nonEmpty s = true ↔ s ≠ "".
Proof. by destruct s. Qed.

Lemma array_filter_all {A} (f : A → bool) l :
  (∀ x, x ∈ l → f x = true) → Array.filter f l = l.
Proof.
  induction l as [|x l IH]; intros Hall; simpl; [done|].
  rewrite (Hall x) by left. f_equal. apply IH. intros y Hy. apply Hall. by right.
Qed.

Lemma array_filter_nil {A} (f : A → bool) l :
  Array.filter f l = [] ↔ ∀ x, x ∈ l → f x = false.
Proof.
  induction l as [|x l IH]; simpl.
  - split; [|done]. intros _ x Hx. by apply elem_of_nil in Hx.
  - destruct (f x) eqn:Hfx.
    + split; [done|]. intros Hall. specialize (Hall x (list_elem_of_here _ _)).
      congruence.
    + rewrite IH. split.
      * intros Hall y Hy. apply elem_of_cons in Hy as [->|Hy]; auto.
      * intros Hall y Hy. apply Hall. by right.
Qed.

(** ** Filtering *)


(** *** Case folding *)











Example filterOptions_apple :
  filterOptions [Opt.mk "Apple" "1" None None; Opt.mk "Grape" "2" None None;
                 Opt.mk "Kiwi" "3" None None] "aP"
  = [Opt.mk "Apple" "1" None None; Opt.mk "Grape" "2" None None].
Proof. by vm_compute. Qed.

(** ** The select-all checkbox *)

(** C4. The checked state of the bulk toggle is true iff every visible option
    that is not disabled has its value in the selection; it is true when no
    visible option is selectable, and that situation is reported by a flag of
    its own, [hasSelectableOptions], which is false exactly then. *)
Theorem isAllOptionSelected_spec (c : MultiSelect) (s : State) :
  (isAllOptionSelected c s = true ↔
   ∀ o, o ∈ filteredOptions s → truthy (Opt.disabled o) = false →
        Opt.value o ∈ values (value c)) ∧
  (hasSelectableOptions c s = false ↔
   ∀ o, o ∈ filteredOptions s → truthy (Opt.disabled o) = true) ∧
  (hasSelectableOptions c s = false → isAllOptionSelected c s = true).
Proof.
  assert (Hall : isAllOptionSelected c s = true ↔
    ∀ o, o ∈ filteredOptions s → truthy (Opt.disabled o) = false →
         Opt.value o ∈ values (value c)).
  { unfold isAllOptionSelected, allSelectedMemo. cbn [fst].
    rewrite array_every_true. setoid_rewrite elem_of_array_filter.
    unfold selectable. split.
    - intros Hevery o Ho Hen.
      specialize (Hevery o (conj (proj2 (negb_true_iff _) Hen) Ho)).
      apply negb_true_iff, Z.eqb_neq, findIndex_found in Hevery
        as (v & Hv & Heq).
      apply bool_decide_eq_true in Heq. apply elem_of_values. eauto.
    - intros Hsel o [Hen Ho]. apply negb_true_iff in Hen.
      apply negb_true_iff, Z.eqb_neq, findIndex_found.
      destruct (proj1 (elem_of_values _ _) (Hsel o Ho Hen)) as (v & Hv & Heq).
      exists v. split; [done|]. by apply bool_decide_eq_true. }
  assert (Hnone : hasSelectableOptions c s = false ↔
    ∀ o, o ∈ filteredOptions s → truthy (Opt.disabled o) = true).
  { unfold hasSelectableOptions, allSelectedMemo. cbn [snd].
    rewrite negb_false_iff, Z.eqb_eq.
    replace 0 with (Z.of_nat 0) by done. rewrite Nat2Z.inj_iff.
    rewrite length_zero_iff_nil, array_filter_nil. unfold selectable.
    by setoid_rewrite negb_false_iff. }
  split; [exact Hall|]. split; [exact Hnone|].
  intros Hno. apply Hall. intros o Ho Hen.
  rewrite (proj1 Hnone Hno o Ho) in Hen. discriminate.
Qed.

Example allSelected_states :
  allSelectedMemo (Sample.ctx [Sample.optA; Sample.optB] [Sample.optA] None)
    (Sample.view "" [Sample.optA; Sample.optB]) = (true, true) ∧
  allSelectedMemo (Sample.ctx [Sample.optA; Sample.optB] [] None)
    (Sample.view "" [Sample.optA; Sample.optB]) = (false, true) ∧
  allSelectedMemo (Sample.ctx [Sample.optA; Sample.optB] [] None)
    (Sample.view "b" [Sample.optB]) = (true, false).
Proof. by vm_compute. Qed.

(** ** Keyboard focus *)

Lemma skipIndex_range (c : MultiSelect) : (0 ≤ skipIndex c ≤ 2)%Z.
Proof. unfold skipIndex. destruct (disableSearch c), (hasSelectAll c); simpl; lia. Qed.

(** What [updateFocus] does guarantee: the index stays between 0 and the
    number of candidates plus [max (skipIndex - 1) 0]. *)
Lemma updateFocus_bounds (c : MultiSelect) (s : State) (offset : Z) :
  (0 ≤ focusIndex (updateFocus c s offset)
     ≤ Z.of_nat (length (options c)) + Z.max (skipIndex c - 1) 0)%Z.
Proof. unfold updateFocus. simpl. lia. Qed.

(** C9, the code at the failing inputs.  With the search box disabled, no
    select-all row and a single visible option there is one row, index 0, yet
    arrow-down moves the focus index to 1.  With the search box enabled and
    the query "c" leaving one of three candidates visible there are two rows,
    indices 0 and 1, yet arrow-down from 1 moves the focus index to 2. *)
Theorem updateFocus_leaves_visible_rows :
  visibleRowCount SampleFocus.bare SampleFocus.bareView = 1 ∧
  focusIndex SampleFocus.bareView = 0 ∧
  focusIndex (updateFocus SampleFocus.bare SampleFocus.bareView 1) = 1 ∧
  filterOptions (options SampleFocus.searching) "c"
    = filteredOptions SampleFocus.searchingView ∧
  visibleRowCount SampleFocus.searching SampleFocus.searchingView = 2 ∧
  focusIndex SampleFocus.searchingView = 1 ∧
  focusIndex (updateFocus SampleFocus.searching SampleFocus.searchingView 1) = 2.
Proof. by vm_compute. Qed.

(** ** Creating an option *)

(** C8. With no replacement creator, creating an option from the query [q]
    builds [{ label: q, value: q, __isNew__: true }], puts it in front of the
    candidate list, appends it to the selection handed to the host, and
    clears the query (the text shown and the text filtered by). *)
Theorem handleOnCreateOption_default (c : MultiSelect) (s : State) :
  onCreateOption c = None →
  let newOption := Opt.mk (searchText s) (searchText s) None (Some true) in
  ∃ c' s', handleOnCreateOption c s = Fulfilled (c', s') ∧
           options c' = newOption :: options c ∧
           value c' = value c ++ [newOption] ∧
           searchText s' = "" ∧
           searchTextForFilter s' = "".
Proof.
  intros Hdefault newOption. unfold handleOnCreateOption. rewrite Hdefault.
  eexists _, _. split; [reflexivity|]. by repeat split.
Qed.

(** C8, instance: the query "zzz" over the candidates [A]. *)
Lemma handleOnCreateOption_default_witness :
  ∃ c' s',
    handleOnCreateOption SampleCreate.creatable (SampleCreate.typed "zzz" [] "zzz")
      = Fulfilled (c', s') ∧
    options c' = Opt.mk "zzz" "zzz" None (Some true) :: [Sample.optA] ∧
    value c' = [] ++ [Opt.mk "zzz" "zzz" None (Some true)] ∧
    searchText s' = "" ∧
    searchTextForFilter s' = "".
Proof.
  exact (handleOnCreateOption_default SampleCreate.creatable
           (SampleCreate.typed "zzz" [] "zzz") eq_refl).
Defined.

(** ** The create affordance *)

Lemma optionsBody_empty c s :
  filteredOptions s = [] →
  optionsBody c s = if showCreatable c s then Creatable (searchText s) else NoOptions.
Proof. intros Hnil. unfold optionsBody. by rewrite Hnil. Qed.

Lemma optionsBody_nonempty c s :
  filteredOptions s ≠ [] → optionsBody c s = SelectList (filteredOptions s).
Proof. intros Hne. unfold optionsBody. by destruct (filteredOptions s). Qed.

(** C7 (as amended). When the widget is creatable and the query is not empty,
    the create affordance is shown iff the visible (filtered) list is
    currently empty: the list left by the last filter pass, which may lag
    behind the typed query or come from a replacement filter. *)
Theorem createAffordance_iff_nothing_visible (c : MultiSelect) (s : State) :
  isCreatable c = true →
  searchText s ≠ "" →
  (createAffordanceShown c s = true ↔ filteredOptions s = []).
Proof.
  intros Hcreatable Hquery.
  unfold createAffordanceShown. split.
  - intros Hshown. destruct (filteredOptions s) as [|o l] eqn:Hvisible; [done|].
    rewrite optionsBody_nonempty in Hshown by (by rewrite Hvisible). done.
  - intros Hnil. rewrite (optionsBody_empty c s Hnil).
    unfold showCreatable. rewrite Hcreatable, Hnil.
    apply nonEmpty_true in Hquery. by rewrite Hquery.
Qed.

(** C7, instance: the query "zzz" over the candidates [A], nothing visible. *)
Lemma createAffordance_iff_nothing_visible_witness :
  (createAffordanceShown SampleCreate.creatable (SampleCreate.typed "zzz" [] "zzz") = true
   ↔ filteredOptions (SampleCreate.typed "zzz" [] "zzz") = []) ∧
  createAffordanceShown SampleCreate.creatable (SampleCreate.typed "zzz" [] "zzz") = true.
Proof.
  split; [|reflexivity].
  apply (createAffordance_iff_nothing_visible SampleCreate.creatable
           (SampleCreate.typed "zzz" [] "zzz")).
  - reflexivity.
  - discriminate.
Defined.

(** C7, counterexample.  The user has just typed "zzz" into a creatable panel
    over the candidates [A]: the query is not empty and matches neither the
    label nor the value of any candidate, but the visible list still holds
    [A] (the debounced filter has not run yet), so the panel renders the
    option rows and no create affordance.  With a replacement filter that
    returns every candidate the panel is in the same situation after the
    filter has run and its response has arrived. *)
Lemma createAffordance_hidden_without_match :
  let c := SampleCreate.creatable in
  let p := run c (mount c) [KeyTyped "zzz"] in
  let c' := SampleCreate.creatableRemote in
  let p' := run c' (mount c')
              [ResponseArrived 0; KeyTyped "zzz"; DebounceElapsed; ResponseArrived 1] in
  (isCreatable c = true ∧
   searchText (local p) = "zzz" ∧
   filteredOptions (local p) = [Sample.optA] ∧
   Forall (λ o, queryMatches (searchText (local p)) o = false) (options c) ∧
   createAffordanceShown c (local p) = false) ∧
  (isCreatable c' = true ∧
   searchText (local p') = "zzz" ∧
   searchTextForFilter (local p') = "zzz" ∧
   inflight p' = [] ∧
   filteredOptions (local p') = [Sample.optA] ∧
   Forall (λ o, queryMatches (searchText (local p')) o = false) (options c') ∧
   createAffordanceShown c' (local p') = false).
Proof.
  cbv zeta. split.
  - split; [done|]. split; [done|]. split; [by vm_compute|].
    split; [|by vm_compute]. repeat constructor.
  - split; [done|]. split; [by vm_compute|]. split; [by vm_compute|].
    split; [by vm_compute|]. split; [by vm_compute|].
    split; [|by vm_compute]. repeat constructor.
Qed.

(** ** The filter effect *)

(** C6 (as amended). When the replacement filter throws or its promise
    rejects, the effect leaves the panel's state, and with it the filtered
    view, unchanged; the panel attaches no rejection handler, so the failure
    is not absorbed: the promise chain of the effect ends rejected with the
    filter's reason, which is left to the host's runtime. *)
Theorem filterEffect_rejected (c : MultiSelect) (s : State) (reason : string) :
  getFilteredOptions c s = Rejected reason →
  filterEffect c s = (s, Rejected reason) ∧
  filteredOptions (fst (filterEffect c s)) = filteredOptions s.
Proof.
  intros Hrejected. unfold filterEffect. by rewrite Hrejected.
Qed.

(** C6, instance: a replacement filter that always fails. *)
Lemma filterEffect_rejected_witness :
  filterEffect SampleAsync.broken (Sample.view "a" [Sample.optA; Sample.optC])
    = (Sample.view "a" [Sample.optA; Sample.optC], Rejected "filter failed") ∧
  filteredOptions
    (fst (filterEffect SampleAsync.broken (Sample.view "a" [Sample.optA; Sample.optC])))
    = filteredOptions (Sample.view "a" [Sample.optA; Sample.optC]).
Proof.
  exact (filterEffect_rejected SampleAsync.broken
           (Sample.view "a" [Sample.optA; Sample.optC]) "filter failed" eq_refl).
Defined.

(** C6, counterexample.  With a failing replacement filter the view is kept,
    but the failure leaves the panel: the chain ends rejected, and in the
    running panel the reason is recorded as an unhandled rejection. *)
Lemma filterEffect_rejection_escapes :
  let c := SampleAsync.broken in
  let s := Sample.view "a" [Sample.optA; Sample.optC] in
  getFilteredOptions c s = Rejected "filter failed" ∧
  fst (filterEffect c s) = s ∧
  snd (filterEffect c s) = Rejected "filter failed" ∧
  snd (filterEffect c s) ≠ Fulfilled () ∧
  unhandled (run c (mount c) [ResponseArrived 0]) = ["filter failed"].
Proof. cbv zeta. repeat split; try by vm_compute. Qed.

(** ** Filter requests over time *)

Lemma getFilteredOptions_query c s s' :
  searchTextForFilter s' = searchTextForFilter s →
  getFilteredOptions c s' = getFilteredOptions c s.
Proof. intros Heq. unfold getFilteredOptions. by rewrite Heq. Qed.

Lemma takeRequest_oldest id promise rest :
  takeRequest id ((id, promise) :: rest) = Some (promise, rest).
Proof. simpl. by rewrite bool_decide_eq_true_2. Qed.

Lemma run_cons c p e events : run c p (e :: events) = run c (step c p e) events.
Proof. done. Qed.

(** *** The default filter: every request settles before the next event *)

Section default_filter.
Variable c : MultiSelect.
Hypothesis Hdefault : customFilterOptions c = None.

Lemma runFilterEffect_default p :
  inflight p = [] → upToDate c (runFilterEffect c p).
Proof using Hdefault.
  intros Hnone. unfold runFilterEffect, getFilteredOptions.
  rewrite Hdefault. simpl. by split.
Qed.

Lemma applyQuery_default q p : upToDate c p → upToDate c (applyQuery c q p).
Proof using Hdefault.
  intros [Hnone Hview]. unfold applyQuery. case_bool_decide; [by split|].
  by apply runFilterEffect_default.
Qed.

Lemma mount_default : upToDate c (mount c).
Proof using Hdefault. by apply runFilterEffect_default. Qed.

Lemma step_default p e : upToDate c p → upToDate c (step c p e).
Proof using Hdefault.
  intros Hp. destruct e as [text| | |id]; simpl.
  - destruct Hp as [Hnone Hview]. by split.
  - destruct (debounced p) as [q|]; [|done].
    apply applyQuery_default. destruct Hp as [Hnone Hview]. by split.
  - destruct (applyQuery_default "" p Hp) as [Hnone Hview]. by split.
  - destruct Hp as [Hnone Hview]. by rewrite Hnone.
Qed.

Lemma run_default events p : upToDate c p → upToDate c (run c p events).
Proof using Hdefault.
  revert p. induction events as [|e events IH]; intros p Hp; [done|].
  rewrite run_cons. by apply IH, step_default.
Qed.
End default_filter.

(** *** A replacement filter whose responses arrive in order *)

Section replacement_filter.
Variable c : MultiSelect.
Variable custom : list Option → string → Settled (list Option).
Hypothesis Hcustom : customFilterOptions c = Some custom.

Lemma runFilterEffect_custom p : newestIsCurrent c (runFilterEffect c p).
Proof using Hcustom.
  unfold runFilterEffect, newestIsCurrent. rewrite Hcustom. simpl.
  by rewrite last_snoc.
Qed.

Lemma applyQuery_custom q p :
  newestIsCurrent c p → newestIsCurrent c (applyQuery c q p).
Proof using Hcustom.
  intros Hp. unfold applyQuery. case_bool_decide; [done|].
  apply runFilterEffect_custom.
Qed.

Lemma settle_oldest_custom p id promise rest :
  inflight p = (id, promise) :: rest →
  newestIsCurrent c p → newestIsCurrent c (settle promise p rest).
Proof.
  unfold newestIsCurrent, settle. intros Hflight Hp. rewrite Hflight in Hp.
  destruct rest as [|next rest].
  - simpl in Hp. subst promise.
    destruct (getFilteredOptions c (local p)) as [r0|reason] eqn:Hcurrent; simpl.
    + intros r Hr.
      rewrite (getFilteredOptions_query c (local p)) in Hr by done. congruence.
    + intros r Hr. congruence.
  - rewrite last_cons_cons in Hp.
    destruct (last (next :: rest)) as [[n newest]|] eqn:Hnewest;
      [|by apply last_None in Hnewest].
    destruct promise as [r0|reason]; simpl; by rewrite Hnewest.
Qed.

Lemma step_custom p e :
  inOrder c p [e] = true → newestIsCurrent c p → newestIsCurrent c (step c p e).
Proof using Hcustom.
  intros Horder Hp. destruct e as [text| | |id]; simpl.
  - exact Hp.
  - destruct (debounced p) as [q|]; [|done]. by apply applyQuery_custom.
  - pose proof (applyQuery_custom "" p Hp) as Hq. exact Hq.
  - simpl in Horder. rewrite andb_true_r in Horder.
    destruct (inflight p) as [|[oldest promise] rest] eqn:Hflight; [done|].
    apply bool_decide_eq_true in Horder as ->.
    rewrite takeRequest_oldest. by eapply settle_oldest_custom.
Qed.

Lemma run_custom events p :
  inOrder c p events = true → newestIsCurrent c p →
  newestIsCurrent c (run c p events).
Proof using Hcustom.
  revert p. induction events as [|e events IH]; intros p Horder Hp; [done|].
  rewrite run_cons. cbn [inOrder] in Horder.
  apply andb_true_iff in Horder as [Hhere Hrest].
  apply IH; [done|]. apply step_custom; [|done].
  cbn [inOrder]. by rewrite Hhere.
Qed.
End replacement_filter.

(** C5 (as amended). The panel applies the result of a filter request when
    its promise fulfils, whether or not a newer request has been issued since.
    With the default filter every request settles before the next event, so
    the visible list is always the result for the most recent query.  With a
    replacement filter the visible list is the result of the most recent
    request once nothing is in flight, provided the responses arrived in the
    order the requests were issued. *)
Theorem filter_responses_applied_on_arrival (c : MultiSelect) :
  (∀ p id r rest,
     takeRequest id (inflight p) = Some (Fulfilled r, rest) →
     filteredOptions (local (step c p (ResponseArrived id))) = r) ∧
  (customFilterOptions c = None →
   ∀ events,
     inflight (run c (mount c) events) = [] ∧
     filteredOptions (local (run c (mount c) events))
       = filterOptions (options c) (searchTextForFilter (local (run c (mount c) events)))) ∧
  (∀ events r,
     inOrder c (mount c) events = true →
     inflight (run c (mount c) events) = [] →
     getFilteredOptions c (local (run c (mount c) events)) = Fulfilled r →
     filteredOptions (local (run c (mount c) events)) = r).
Proof.
  split; [|split].
  - intros p id r rest Htake. simpl. by rewrite Htake.
  - intros Hdefault events. by apply run_default, mount_default.
  - intros events r Horder Hidle Hlatest.
    destruct (customFilterOptions c) as [custom|] eqn:Hfilter.
    + pose proof (run_custom c custom Hfilter events (mount c) Horder
                    (runFilterEffect_custom c custom Hfilter _)) as Hnewest.
      unfold newestIsCurrent in Hnewest. rewrite Hidle in Hnewest.
      by apply Hnewest.
    + destruct (run_default c Hfilter events (mount c) (mount_default c Hfilter))
        as [_ Hview].
      unfold getFilteredOptions in Hlatest. rewrite Hfilter in Hlatest.
      congruence.
Qed.

Example responses_in_order :
  let events := [ResponseArrived 0; KeyTyped "a"; DebounceElapsed; KeyTyped "c";
                 DebounceElapsed; ResponseArrived 1; ResponseArrived 2] in
  inOrder SampleAsync.remote (mount SampleAsync.remote) events = true ∧
  inflight (run SampleAsync.remote (mount SampleAsync.remote) events) = [] ∧
  filteredOptions (local (run SampleAsync.remote (mount SampleAsync.remote) events))
    = [Sample.optC].
Proof. by vm_compute. Qed.

(** C5, counterexample.  With a replacement filter the user types "a",
    pauses, replaces it by "c" and pauses again; the response for "c" arrives
    first and the response for "a" after it.  The request for "a", superseded
    by then, still updates the visible list, which ends as the result for "a"
    while the query is "c". *)
Lemma superseded_response_overwrites_newer :
  let c := SampleAsync.remote in
  let p := run c (mount c) SampleAsync.overtaken in
  supersededUpdates c (mount c) SampleAsync.overtaken = [1%nat] ∧
  inflight p = [] ∧
  searchTextForFilter (local p) = "c" ∧
  getFilteredOptions c (local p) = Fulfilled [Sample.optC] ∧
  filteredOptions (local p) = [Sample.optA].
Proof. by vm_compute. Qed.

(** * Further properties of the panel *)

(** ** Keyboard focus *)

(** X1. Whatever the current index and the offset, [updateFocus] leaves the
    focus index between 0 and the number of candidates plus
    [max (skipIndex - 1) 0]; a move that stays in that range is applied as it
    is, and the rest of the state is untouched. *)
Theorem updateFocus_clamps (c : MultiSelect) (s : State) (offset : Z) :
  (0 ≤ focusIndex (updateFocus c s offset) ≤ focusLimit c)%Z ∧
  ((0 ≤ focusIndex s + offset ≤ focusLimit c)%Z →
   focusIndex (updateFocus c s offset) = (focusIndex s + offset)%Z) ∧
  ((focusIndex s + offset < 0)%Z → focusIndex (updateFocus c s offset) = 0) ∧
  ((focusLimit c < focusIndex s + offset)%Z →
   focusIndex (updateFocus c s offset) = focusLimit c) ∧
  searchText (updateFocus c s offset) = searchText s ∧
  filteredOptions (updateFocus c s offset) = filteredOptions s ∧
  searchTextForFilter (updateFocus c s offset) = searchTextForFilter s.
Proof.
  pose proof (skipIndex_range c) as Hskip.
  unfold updateFocus, focusLimit. simpl. repeat split; lia.
Qed.

Lemma setFocusIndex_twice i j s : setFocusIndex i (setFocusIndex j s) = setFocusIndex i s.
Proof. done. Qed.

(** X2. Arrow-down followed by arrow-up brings the panel back to the state it
    was in when the focus index was inside the range and below the limit, and
    so does arrow-up followed by arrow-down when it was above 0; both keys are
    consumed, and any other key leaves the state alone and is not consumed. *)
Theorem arrow_keys_round_trip (KEY : Keys) (c : MultiSelect) (s : State) :
  ARROW_UP KEY ≠ ARROW_DOWN KEY →
  (0 ≤ focusIndex s ≤ focusLimit c)%Z →
  ((focusIndex s < focusLimit c)%Z →
   handleKeyDown KEY c (fst (handleKeyDown KEY c s (ARROW_DOWN KEY))) (ARROW_UP KEY)
   = (s, true)) ∧
  ((0 < focusIndex s)%Z →
   handleKeyDown KEY c (fst (handleKeyDown KEY c s (ARROW_UP KEY))) (ARROW_DOWN KEY)
   = (s, true)) ∧
  (∀ code, code ≠ ARROW_UP KEY → code ≠ ARROW_DOWN KEY →
           handleKeyDown KEY c s code = (s, false)).
Proof.
  intros Hdistinct Hrange. unfold handleKeyDown, focusLimit in *.
  rewrite (bool_decide_eq_false_2 (ARROW_DOWN KEY = ARROW_UP KEY)) by congruence.
  rewrite !bool_decide_eq_true_2 by done. cbn [fst].
  split; [|split].
  - intros Hbelow. f_equal. unfold updateFocus. rewrite setFocusIndex_twice.
    destruct s as [text visible query index]. unfold setFocusIndex. simpl in *.
    f_equal. lia.
  - intros Habove. f_equal. unfold updateFocus. rewrite setFocusIndex_twice.
    destruct s as [text visible query index]. unfold setFocusIndex. simpl in *.
    f_equal. lia.
  - intros code Hup Hdown. by rewrite !bool_decide_eq_false_2.
Qed.

(** X2, instance: the browser's key codes, three candidates, focus on row 1. *)
Lemma arrow_keys_round_trip_witness :
  ((focusIndex SampleFocus.searchingView < focusLimit SampleFocus.searching)%Z →
   handleKeyDown domKeys SampleFocus.searching
     (fst (handleKeyDown domKeys SampleFocus.searching SampleFocus.searchingView
             (ARROW_DOWN domKeys)))
     (ARROW_UP domKeys)
   = (SampleFocus.searchingView, true)) ∧
  ((0 < focusIndex SampleFocus.searchingView)%Z →
   handleKeyDown domKeys SampleFocus.searching
     (fst (handleKeyDown domKeys SampleFocus.searching SampleFocus.searchingView
             (ARROW_UP domKeys)))
     (ARROW_DOWN domKeys)
   = (SampleFocus.searchingView, true)) ∧
  (∀ code, code ≠ ARROW_UP domKeys → code ≠ ARROW_DOWN domKeys →
           handleKeyDown domKeys SampleFocus.searching SampleFocus.searchingView code
           = (SampleFocus.searchingView, false)).
Proof.
  apply (arrow_keys_round_trip domKeys SampleFocus.searching SampleFocus.searchingView).
  - discriminate.
  - vm_compute. split; discriminate.
Defined.

(** X3. When the select-all row is enabled its [tabIndex] is
    [skipIndex - 1], the index right after the search box: 1 with the search
    box, 0 without it.  Clicking the row sets the focus index to 1, which is
    the row's own [tabIndex] only when the search box is enabled. *)
Theorem selectAllTabIndex_follows_search (c : MultiSelect) (s : State) :
  hasSelectAll c = true →
  selectAllTabIndex c = (skipIndex c - 1)%Z ∧
  selectAllTabIndex c = (if disableSearch c then 0 else 1) ∧
  focusIndex (selectAllClicked s) = 1 ∧
  (focusIndex (selectAllClicked s) = selectAllTabIndex c ↔ disableSearch c = false).
Proof.
  intros Hall. unfold selectAllTabIndex, skipIndex, selectAllClicked. rewrite Hall.
  destruct (disableSearch c); simpl; repeat split; try done.
Qed.

(** X3, instance. *)
Lemma selectAllTabIndex_follows_search_witness :
  selectAllTabIndex SampleCreate.creatable = (skipIndex SampleCreate.creatable - 1)%Z ∧
  selectAllTabIndex SampleCreate.creatable
    = (if disableSearch SampleCreate.creatable then 0 else 1) ∧
  focusIndex (selectAllClicked (SampleCreate.typed "" [Sample.optA] "")) = 1 ∧
  (focusIndex (selectAllClicked (SampleCreate.typed "" [Sample.optA] ""))
     = selectAllTabIndex SampleCreate.creatable
   ↔ disableSearch SampleCreate.creatable = false).
Proof.
  exact (selectAllTabIndex_follows_search SampleCreate.creatable
           (SampleCreate.typed "" [Sample.optA] "") eq_refl).
Defined.

(** ** Bulk selection and the select-all checkbox *)

Lemma isAllOptionSelected_true c s :
  isAllOptionSelected c s = true ↔
  ∀ v, v ∈ visibleSelectable s → v ∈ values (value c).
Proof.
  unfold isAllOptionSelected, allSelectedMemo. cbn [fst].
  rewrite array_every_true. split.
  - intros Hevery v Hv. apply elem_of_values in Hv as (o & Ho & <-).
    apply Hevery in Ho.
    apply negb_true_iff, Z.eqb_neq, findIndex_found in Ho as (w & Hw & Heq).
    apply bool_decide_eq_true in Heq. apply elem_of_values. eauto.
  - intros Hsel o Ho. apply negb_true_iff, Z.eqb_neq, findIndex_found.
    assert (Hv : Opt.value o ∈ visibleSelectable s).
    { apply elem_of_values. eauto. }
    destruct (proj1 (elem_of_values _ _) (Hsel _ Hv)) as (w & Hw & Heq).
    exists w. split; [done|]. by apply bool_decide_eq_true.
Qed.

Lemma hasSelectableOptions_true c s :
  hasSelectableOptions c s = true ↔ ∃ v, v ∈ visibleSelectable s.
Proof.
  unfold hasSelectableOptions, allSelectedMemo, visibleSelectable, values, Array.map.
  cbn [snd]. rewrite negb_true_iff, Z.eqb_neq.
  destruct (Array.filter selectable (filteredOptions s)) as [|o l]; simpl.
  - split; [done|]. intros [v Hv]. by apply elem_of_nil in Hv.
  - split; [|lia]. intros _. exists (Opt.value o). by left.
Qed.

Lemma array_filter_ext_in {A} (f g : A → bool) l :
  (∀ x, x ∈ l → f x = g x) → Array.filter f l = Array.filter g l.
Proof.
  intros Hext. apply filter_ext_in. intros x Hx. apply Hext.
  by apply list_elem_of_In.
Qed.

Lemma array_filter_twice {A} (f : A → bool) l :
  Array.filter f (Array.filter f l) = Array.filter f l.
Proof.
  apply array_filter_all. intros x Hx. by apply elem_of_array_filter in Hx as [? _].
Qed.

Lemma selectionSource_onChange l c s :
  selectionSource (onChange l c) s = selectionSource c s.
Proof. done. Qed.

(** X4. Once select-all has been reported to the host, the select-all
    checkbox is checked, provided the list the selection is taken from
    contains the visible options: a replacement filter is supplied, or every
    visible option is a candidate. *)
Theorem select_all_checks_the_toggle (c : MultiSelect) (s : State) :
  (customFilterOptions c = None → ∀ o, o ∈ filteredOptions s → o ∈ options c) →
  isAllOptionSelected (selectAllChanged c s true) s = true.
Proof.
  intros Hvisible. apply isAllOptionSelected_true. intros v Hv.
  unfold selectAllChanged. cbn [value onChange].
  destruct (proj1 (elem_of_visibleSelectable v s) Hv) as (o & Ho & Hen & <-).
  apply elem_of_values. exists o. split; [|done].
  apply elem_of_selectAllValues_checked. split; [|by right].
  unfold selectionSource.
  destruct (customFilterOptions c) as [custom|] eqn:Hfilter; simpl; [done|].
  by apply Hvisible.
Qed.

(** X4, instance: the query "c" over the candidates [A; B; C]. *)
Lemma select_all_checks_the_toggle_witness :
  isAllOptionSelected
    (selectAllChanged
       (Sample.ctx [Sample.optA; Sample.optB; Sample.optC] [Sample.optA] None)
       (Sample.view "c" [Sample.optC]) true)
    (Sample.view "c" [Sample.optC]) = true.
Proof.
  apply (select_all_checks_the_toggle
           (Sample.ctx [Sample.optA; Sample.optB; Sample.optC] [Sample.optA] None)
           (Sample.view "c" [Sample.optC])).
  intros _ o Ho. apply list_elem_of_singleton in Ho as ->.
  simpl. do 2 right. left.
Defined.

(** X5. Once deselect-all has been reported to the host, no visible option
    that is not disabled has its value in the selection, and the select-all
    checkbox is unchecked whenever there is such an option. *)
Theorem deselect_all_unchecks_the_toggle (c : MultiSelect) (s : State) :
  hasSelectableOptions c s = true →
  isAllOptionSelected (selectAllChanged c s false) s = false ∧
  (∀ v, v ∈ visibleSelectable s → v ∉ values (value (selectAllChanged c s false))).
Proof.
  intros Hsome.
  assert (Hnone : ∀ v, v ∈ visibleSelectable s →
                       v ∉ values (value (selectAllChanged c s false))).
  { intros v Hv Hin. unfold selectAllChanged in Hin. cbn [value onChange] in Hin.
    apply elem_of_values in Hin as (o & Ho & <-).
    apply elem_of_selectAllValues_unchecked in Ho as [_ Hout]. by apply Hout. }
  split; [|exact Hnone].
  apply not_true_iff_false. intros Hall.
  apply hasSelectableOptions_true in Hsome as [v Hv].
  apply (Hnone v Hv). by apply (proj1 (isAllOptionSelected_true _ s) Hall).
Qed.

(** X5, instance. *)
Lemma deselect_all_unchecks_the_toggle_witness :
  isAllOptionSelected
    (selectAllChanged
       (Sample.ctx [Sample.optA; Sample.optC] [Sample.optA; Sample.optC] None)
       (Sample.view "c" [Sample.optC]) false)
    (Sample.view "c" [Sample.optC]) = false ∧
  (∀ v, v ∈ visibleSelectable (Sample.view "c" [Sample.optC]) →
        v ∉ values (value (selectAllChanged
                             (Sample.ctx [Sample.optA; Sample.optC]
                                [Sample.optA; Sample.optC] None)
                             (Sample.view "c" [Sample.optC]) false))).
Proof.
  exact (deselect_all_unchecks_the_toggle
           (Sample.ctx [Sample.optA; Sample.optC] [Sample.optA; Sample.optC] None)
           (Sample.view "c" [Sample.optC]) eq_refl).
Defined.

(** X6. Bulk selection is idempotent: reporting select-all (or deselect-all)
    to the host and applying the same operation again to the same visible
    list returns the same selection. *)
Theorem selectAllValues_idempotent (c : MultiSelect) (s : State) (checked : bool) :
  selectAllValues (selectAllChanged c s checked) s checked = selectAllValues c s checked.
Proof.
  destruct checked.
  - unfold selectAllChanged.
    change (selectAllValues (onChange (selectAllValues c s true) c) s true)
      with (Array.filter
              (λ o, Array.includes
                      (values (selectAllValues c s true) ++ visibleSelectable s)
                      (Opt.value o))
              (selectionSource c s)).
    change (selectAllValues c s true)
      with (Array.filter
              (λ o, Array.includes (values (value c) ++ visibleSelectable s)
                      (Opt.value o))
              (selectionSource c s)) at 2.
    apply array_filter_ext_in. intros o Ho.
    apply eq_true_iff_eq. rewrite !array_includes_true, !elem_of_app.
    rewrite (elem_of_values (Opt.value o) (selectAllValues c s true)).
    setoid_rewrite elem_of_selectAllValues_checked. split.
    + intros [(o' & (_ & Hsel) & <-)|Hvis]; tauto.
    + intros Hsel. destruct Hsel as [Hsel|Hvis]; [|by right].
      left. exists o. tauto.
  - unfold selectAllChanged.
    change (selectAllValues (onChange (selectAllValues c s false) c) s false)
      with (Array.filter
              (λ o, negb (Array.includes (visibleSelectable s) (Opt.value o)))
              (Array.filter
                 (λ o, negb (Array.includes (visibleSelectable s) (Opt.value o)))
                 (value c))).
    apply array_filter_twice.
Qed.

(** X7. Select-all followed by deselect-all over the same visible list leaves
    exactly the options of the source list whose value was selected before
    and is not the value of a visible option that is not disabled, in the
    source's order. *)
Theorem select_then_deselect (c : MultiSelect) (s : State) :
  selectAllValues (selectAllChanged c s true) s false `sublist_of` selectionSource c s ∧
  (∀ o, o ∈ selectAllValues (selectAllChanged c s true) s false ↔
        o ∈ selectionSource c s ∧
        Opt.value o ∈ values (value c) ∧
        Opt.value o ∉ visibleSelectable s).
Proof.
  split.
  - transitivity (selectAllValues c s true); apply array_filter_sublist.
  - intros o. rewrite elem_of_selectAllValues_unchecked.
    unfold selectAllChanged. cbn [value onChange].
    rewrite elem_of_selectAllValues_checked. tauto.
Qed.

(** X8. When no visible option is selectable (the list is empty or every
    visible option is disabled), deselect-all returns the selection as it
    is, and select-all returns the options of the source list whose value is
    already selected. *)
Theorem bulk_selection_without_selectable (c : MultiSelect) (s : State) :
  hasSelectableOptions c s = false →
  selectAllValues c s false = value c ∧
  (∀ o, o ∈ selectAllValues c s true ↔
        o ∈ selectionSource c s ∧ Opt.value o ∈ values (value c)).
Proof.
  intros Hnone.
  assert (Hempty : ∀ v, v ∉ visibleSelectable s).
  { intros v Hv. apply not_true_iff_false in Hnone. apply Hnone.
    apply hasSelectableOptions_true. eauto. }
  split.
  - apply array_filter_all. intros o _. apply negb_true_iff, not_true_iff_false.
    rewrite array_includes_true. apply Hempty.
  - intros o. rewrite elem_of_selectAllValues_checked.
    specialize (Hempty (Opt.value o)). tauto.
Qed.

(** X8, instance: only the disabled [B] is visible. *)
Lemma bulk_selection_without_selectable_witness :
  selectAllValues (Sample.ctx [Sample.optA; Sample.optB] [Sample.optA] None)
    (Sample.view "b" [Sample.optB]) false
  = value (Sample.ctx [Sample.optA; Sample.optB] [Sample.optA] None) ∧
  (∀ o, o ∈ selectAllValues (Sample.ctx [Sample.optA; Sample.optB] [Sample.optA] None)
              (Sample.view "b" [Sample.optB]) true ↔
        o ∈ selectionSource (Sample.ctx [Sample.optA; Sample.optB] [Sample.optA] None)
              (Sample.view "b" [Sample.optB]) ∧
        Opt.value o ∈ values (value (Sample.ctx [Sample.optA; Sample.optB]
                                       [Sample.optA] None))).
Proof.
  exact (bulk_selection_without_selectable
           (Sample.ctx [Sample.optA; Sample.optB] [Sample.optA] None)
           (Sample.view "b" [Sample.optB]) eq_refl).
Defined.

(** ** Creating an option with a replacement creator *)



Example handleOnCreateOption_creators :
  (∃ c' s',
     handleOnCreateOption (SampleCreator.withCreator SampleCreator.remoteCreate)
       (SampleCreate.typed "zzz" [] "zzz") = Fulfilled (c', s') ∧
     options c' = [Opt.mk "zzz" "id-zzz" None None; Sample.optA] ∧
     value c' = [Sample.optA; Opt.mk "zzz" "id-zzz" None None]) ∧
  handleOnCreateOption (SampleCreator.withCreator SampleCreator.failingCreate)
    (SampleCreate.typed "zzz" [] "zzz") = Rejected "creation failed".
Proof. split; [|done]. eexists _, _. by vm_compute. Qed.

(** X10. Whenever creating an option succeeds, with the default or with a
    replacement creator, the panel that results shows no create affordance:
    the query has been cleared.  The candidates have grown by exactly one
    option and the selection by exactly one, the earlier candidates and the
    earlier selection keeping their order. *)
Theorem created_option_hides_affordance (c c' : MultiSelect) (s s' : State) :
  handleOnCreateOption c s = Fulfilled (c', s') →
  createAffordanceShown c' s' = false ∧
  showCreatable c' s' = false ∧
  (∃ created, options c' = created :: options c ∧ value c' = value c ++ [created]) ∧
  length (options c') = S (length (options c)) ∧
  length (value c') = S (length (value c)).
Proof.
  intros Hcreated.
  assert (Hshape : searchText s' = "" ∧ filteredOptions s' = filteredOptions s ∧
                   isCreatable c' = isCreatable c ∧
                   ∃ created, options c' = created :: options c ∧
                              value c' = value c ++ [created]).
  { unfold handleOnCreateOption in Hcreated.
    destruct (onCreateOption c) as [create|].
    - destruct (create (searchText s)) as [created|reason]; [|done].
      injection Hcreated as <- <-. repeat split. by eexists.
    - injection Hcreated as <- <-. repeat split. by eexists. }
  destruct Hshape as (Hquery & _ & _ & created & Hoptions & Hvalue).
  assert (Hhidden : showCreatable c' s' = false).
  { unfold showCreatable. rewrite Hquery. simpl. by rewrite andb_false_r. }
  split; [|split; [done|]].
  - unfold createAffordanceShown, optionsBody. rewrite Hhidden.
    by destruct (negb _).
  - split; [eauto|]. rewrite Hoptions, Hvalue, length_app. simpl. lia.
Qed.

(** X10, instance. *)
Lemma created_option_hides_affordance_witness :
  let c := SampleCreate.creatable in
  let s := SampleCreate.typed "zzz" [] "zzz" in
  let c' := onChange (value c ++ [Opt.mk "zzz" "zzz" None (Some true)])
              (setOptions (Opt.mk "zzz" "zzz" None (Some true) :: options c) c) in
  let s' := handleClear s in
  createAffordanceShown c s = true ∧
  createAffordanceShown c' s' = false ∧
  showCreatable c' s' = false ∧
  (∃ created, options c' = created :: options c ∧ value c' = value c ++ [created]) ∧
  length (options c') = S (length (options c)) ∧
  length (value c') = S (length (value c)).
Proof.
  cbv zeta. split; [done|].
  exact (created_option_hides_affordance SampleCreate.creatable _
           (SampleCreate.typed "zzz" [] "zzz") _ eq_refl).
Defined.

(** * The dropdown *)

Lemma dropdown_run_cons KEY d cs e events :
  Dropdown.run KEY d cs (e :: events) = Dropdown.run KEY d (Dropdown.step KEY d cs e) events.
Proof. done. Qed.

Lemma dropdown_handleKeyDown_internal KEY st k :
  Dropdown.isInternalExpand (fst (Dropdown.handleKeyDown KEY st k))
  = Dropdown.isInternalExpand st.
Proof.
  unfold Dropdown.handleKeyDown.
  destruct (_ && _); simpl; [done|].
  destruct (Dropdown.isInternalExpand st) eqn:Hint; [|done].
  by destruct (bool_decide _).
Qed.

Lemma dropdown_valueEffect_internal d st :
  Dropdown.isInternalExpand (Dropdown.valueEffect d st) = Dropdown.isInternalExpand st.
Proof. unfold Dropdown.valueEffect. by destruct (Dropdown.closeOnChangedValue d). Qed.

Lemma dropdown_step_internal KEY d cs e :
  Dropdown.isInternalExpand (snd (Dropdown.step KEY d cs e))
  = Dropdown.isInternalExpand (snd cs).
Proof.
  destruct cs as [c st], e as [k| | | |inside| |]; simpl.
  - unfold Dropdown.keyDown. destruct (Array.includes _ _); [|done].
    apply dropdown_handleKeyDown_internal.
  - unfold Dropdown.handleMouseEnter, Dropdown.handleHover. by destruct (_ && _).
  - unfold Dropdown.handleMouseLeave, Dropdown.handleHover. by destruct (_ && _).
  - unfold Dropdown.handleFocus. by destruct (negb _).
  - unfold Dropdown.handleBlur. by destruct (_ && _).
  - unfold Dropdown.toggleExpanded. by destruct (Dropdown.isInternalExpand st) eqn:Hint.
  - destruct (_ && _); [|done]. unfold Dropdown.clearClicked. simpl.
    rewrite dropdown_valueEffect_internal.
    by destruct (Dropdown.isInternalExpand st) eqn:Hint.
Qed.

Lemma dropdown_step_controlled KEY d cs e :
  Dropdown.isInternalExpand (snd cs) = false →
  Dropdown.closeOnChangedValue d = false →
  Dropdown.expanded (snd (Dropdown.step KEY d cs e)) = Dropdown.expanded (snd cs).
Proof.
  destruct cs as [c st], e as [k| | | |inside| |]; simpl; intros Hint Hkeep.
  - unfold Dropdown.keyDown. destruct (Array.includes _ _); [|done].
    unfold Dropdown.handleKeyDown. rewrite Hint. by destruct (_ && _).
  - unfold Dropdown.handleMouseEnter, Dropdown.handleHover. by rewrite Hint.
  - unfold Dropdown.handleMouseLeave, Dropdown.handleHover. by rewrite Hint.
  - unfold Dropdown.handleFocus. by destruct (negb _).
  - unfold Dropdown.handleBlur. by rewrite Hint, andb_false_r.
  - unfold Dropdown.toggleExpanded. by rewrite Hint.
  - destruct (_ && _); [|done].
    unfold Dropdown.clearClicked, Dropdown.valueEffect. simpl. by rewrite Hint, Hkeep.
Qed.

(** X11. No sequence of key, mouse, focus, blur or click events on the
    dropdown changes whether it manages its own expansion.  Once the host
    controls the expansion and [closeOnChangedValue] is off, no such sequence
    changes [expanded].  With [closeOnChangedValue] on, a click on the clear
    button closes a host-controlled dropdown as well: the selection changes
    and the effect on it sets [expanded] to false. *)
Theorem dropdown_controlled_stays_put (KEY : Keys) (d : Dropdown.Props)
    (cs : MultiSelect * Dropdown.State) (events : list Dropdown.Event) :
  Dropdown.isInternalExpand (snd (Dropdown.run KEY d cs events))
    = Dropdown.isInternalExpand (snd cs) ∧
  (Dropdown.isInternalExpand (snd cs) = false →
   Dropdown.closeOnChangedValue d = false →
   Dropdown.expanded (snd (Dropdown.run KEY d cs events)) = Dropdown.expanded (snd cs)) ∧
  (Dropdown.closeOnChangedValue d = true →
   Dropdown.clearButtonShown (fst cs) d = true →
   Dropdown.disabled d = false →
   Dropdown.expanded (snd (Dropdown.step KEY d cs Dropdown.ClearClicked)) = Some false).
Proof.
  split; [|split].
  - revert cs. induction events as [|e events IH]; intros cs; [done|].
    rewrite dropdown_run_cons, IH. apply dropdown_step_internal.
  - revert cs. induction events as [|e events IH]; intros cs Hint Hkeep; [done|].
    rewrite dropdown_run_cons, IH.
    + by apply dropdown_step_controlled.
    + by rewrite dropdown_step_internal.
    + done.
  - destruct cs as [c st]. simpl. intros Hclose -> ->. simpl.
    unfold Dropdown.clearClicked, Dropdown.valueEffect. simpl. by rewrite Hclose.
Qed.

Example dropdown_controlled_ignores_user :
  let d := Dropdown.controlled false in
  let events := [Dropdown.Focus; Dropdown.HeadingClicked; Dropdown.MouseEnter;
                 Dropdown.KeyDown {| Dropdown.targetType := None;
                                     Dropdown.code := "ArrowDown" |}] in
  Dropdown.isInternalExpand (Dropdown.mount d true) = false ∧
  Dropdown.panelShown
    (snd (Dropdown.run domKeys d (Sample.ctx [] [] None, Dropdown.mount d true) events))
  = false ∧
  Dropdown.panelShown
    (snd (Dropdown.run domKeys Dropdown.uncontrolled
            (Sample.ctx [] [] None,
             Dropdown.setExpanded (Some false) (Dropdown.mount Dropdown.uncontrolled true))
            events))
  = true ∧
  Dropdown.panelShown (Dropdown.mount Dropdown.controlledClosing true) = true ∧
  Dropdown.panelShown
    (snd (Dropdown.run domKeys Dropdown.controlledClosing
            (Sample.ctx [Sample.optA] [Sample.optA] None,
             Dropdown.mount Dropdown.controlledClosing true)
            [Dropdown.ClearClicked]))
  = false.
Proof. by vm_compute. Qed.

(** X12. A dropdown that manages its own expansion and is loading or disabled
    is closed by a click on its heading, whatever its state was: a click
    never opens it. *)
Theorem dropdown_toggle_blocked (d : Dropdown.Props) (st : Dropdown.State) :
  Dropdown.isInternalExpand st = true →
  Dropdown.isLoading d || Dropdown.disabled d = true →
  Dropdown.expanded (Dropdown.toggleExpanded d st) = Some false ∧
  Dropdown.panelShown (Dropdown.toggleExpanded d st) = false.
Proof.
  intros Hint Hblocked. unfold Dropdown.toggleExpanded, Dropdown.panelShown.
  by rewrite Hint, Hblocked.
Qed.

(** X12, instance: a loading dropdown that happens to be open. *)
Lemma dropdown_toggle_blocked_witness :
  Dropdown.expanded
    (Dropdown.toggleExpanded Dropdown.busy
       (Dropdown.setExpanded (Some true) (Dropdown.mount Dropdown.busy false)))
  = Some false ∧
  Dropdown.panelShown
    (Dropdown.toggleExpanded Dropdown.busy
       (Dropdown.setExpanded (Some true) (Dropdown.mount Dropdown.busy false)))
  = false.
Proof.
  exact (dropdown_toggle_blocked Dropdown.busy
           (Dropdown.setExpanded (Some true) (Dropdown.mount Dropdown.busy false))
           eq_refl eq_refl).
Defined.

(** X13. A dropdown that manages its own expansion and is neither loading nor
    disabled is toggled by a click on its heading: the panel is shown after
    the click iff it was not shown before, also when [expanded] started out
    undefined, and a second click brings the panel back to where it was. *)
Theorem dropdown_toggle_twice (d : Dropdown.Props) (st : Dropdown.State) :
  Dropdown.isInternalExpand st = true →
  Dropdown.isLoading d || Dropdown.disabled d = false →
  Dropdown.panelShown (Dropdown.toggleExpanded d st) = negb (Dropdown.panelShown st) ∧
  Dropdown.panelShown (Dropdown.toggleExpanded d (Dropdown.toggleExpanded d st))
    = Dropdown.panelShown st ∧
  Dropdown.hasFocus (Dropdown.toggleExpanded d st) = Dropdown.hasFocus st.
Proof.
  intros Hint Hfree. unfold Dropdown.toggleExpanded, Dropdown.panelShown.
  rewrite Hint. simpl. rewrite Hint, Hfree. simpl.
  by rewrite negb_involutive.
Qed.

(** X13, instance: [defaultIsOpen] not given, so [expanded] starts undefined. *)
Lemma dropdown_toggle_twice_witness :
  let d := Dropdown.controlled true in
  let st := Dropdown.initial d in
  Dropdown.expanded st = None ∧
  Dropdown.panelShown (Dropdown.toggleExpanded d st) = negb (Dropdown.panelShown st) ∧
  Dropdown.panelShown (Dropdown.toggleExpanded d (Dropdown.toggleExpanded d st))
    = Dropdown.panelShown st ∧
  Dropdown.hasFocus (Dropdown.toggleExpanded d st) = Dropdown.hasFocus st.
Proof.
  cbv zeta. split; [done|].
  exact (dropdown_toggle_twice (Dropdown.controlled true)
           (Dropdown.initial (Dropdown.controlled true)) eq_refl eq_refl).
Defined.

(** X14. Key events on a dropdown that manages its own expansion.  Escape
    closes it and is consumed, wherever the event comes from, the search
    input included.  Space and Enter pressed on a text input or a button are
    left alone: state unchanged, default not prevented.  Enter, Space and
    arrow-down anywhere else, and arrow-down everywhere, open the dropdown
    and are consumed.  A key the handler is not registered for changes
    nothing and is not consumed. *)
Theorem dropdown_keys (KEY : Keys) (st : Dropdown.State) :
  ESCAPE KEY ≠ SPACE KEY →
  ESCAPE KEY ≠ ENTER KEY →
  ESCAPE KEY ≠ ARROW_DOWN KEY →
  Dropdown.isInternalExpand st = true →
  (∀ target,
     Dropdown.keyDown KEY st
       {| Dropdown.targetType := target; Dropdown.code := ESCAPE KEY |}
     = (Dropdown.setExpanded (Some false) st, true)) ∧
  (∀ target key,
     target = "text" ∨ target = "button" →
     key = SPACE KEY ∨ key = ENTER KEY →
     Dropdown.keyDown KEY st
       {| Dropdown.targetType := Some target; Dropdown.code := key |}
     = (st, false)) ∧
  (∀ e,
     Dropdown.code e = ENTER KEY ∨ Dropdown.code e = SPACE KEY
     ∨ Dropdown.code e = ARROW_DOWN KEY →
     (Dropdown.targetType e ≠ Some "text" ∧ Dropdown.targetType e ≠ Some "button")
     ∨ (Dropdown.code e ≠ SPACE KEY ∧ Dropdown.code e ≠ ENTER KEY) →
     Dropdown.keyDown KEY st e = (Dropdown.setExpanded (Some true) st, true)) ∧
  (∀ e,
     Dropdown.code e ∉ Dropdown.registeredKeys KEY →
     Dropdown.keyDown KEY st e = (st, false)).
Proof.
  intros Hspace Henter Hdown Hint.
  assert (Hcodes : ∀ key, Array.includes [SPACE KEY; ENTER KEY] key = true ↔
                          key = SPACE KEY ∨ key = ENTER KEY).
  { intros key. rewrite array_includes_true. set_solver. }
  assert (Htypes : ∀ target, Dropdown.typeIn ["text"; "button"] target = true ↔
                             target = Some "text" ∨ target = Some "button").
  { intros [target|]; simpl.
    - rewrite array_includes_true. set_solver.
    - split; [done|]. by intros [|]. }
  assert (Hregistered : ∀ key, Array.includes (Dropdown.registeredKeys KEY) key = true ↔
                               key ∈ Dropdown.registeredKeys KEY).
  { intros key. apply array_includes_true. }
  split; [|split; [|split]].
  - intros target. unfold Dropdown.keyDown. simpl Dropdown.code.
    rewrite (proj2 (Hregistered (ESCAPE KEY)))
      by (unfold Dropdown.registeredKeys; set_solver).
    unfold Dropdown.handleKeyDown. simpl.
    destruct (Array.includes [SPACE KEY; ENTER KEY] (ESCAPE KEY)) eqn:Hguard.
    { apply Hcodes in Hguard. tauto. }
    rewrite andb_false_r, Hint. by rewrite bool_decide_eq_true_2.
  - intros target key Htarget Hkey. unfold Dropdown.keyDown. simpl Dropdown.code.
    rewrite (proj2 (Hregistered key))
      by (unfold Dropdown.registeredKeys; destruct Hkey; subst; set_solver).
    unfold Dropdown.handleKeyDown. simpl Dropdown.targetType. simpl Dropdown.code.
    rewrite (proj2 (Htypes (Some target))) by (destruct Htarget; subst; tauto).
    by rewrite (proj2 (Hcodes key) Hkey).
  - intros e Hkey Hfree. unfold Dropdown.keyDown.
    rewrite (proj2 (Hregistered (Dropdown.code e)))
      by (unfold Dropdown.registeredKeys; destruct Hkey as [->|[->| ->]]; set_solver).
    unfold Dropdown.handleKeyDown.
    destruct (Dropdown.typeIn _ _ && Array.includes _ _) eqn:Hguard.
    { apply andb_true_iff in Hguard as [Htype Hcode].
      apply Htypes in Htype. apply Hcodes in Hcode. tauto. }
    rewrite Hint. rewrite bool_decide_eq_false_2; [done|].
    destruct Hkey as [->|[->| ->]]; congruence.
  - intros e Hother. unfold Dropdown.keyDown.
    destruct (Array.includes (Dropdown.registeredKeys KEY) (Dropdown.code e)) eqn:Hin;
      [|done].
    apply Hregistered in Hin. tauto.
Qed.

(** X14, instance: the browser's key codes. *)
Lemma dropdown_keys_witness :
  let st := Dropdown.mount Dropdown.uncontrolled true in
  (∀ target,
     Dropdown.keyDown domKeys st
       {| Dropdown.targetType := target; Dropdown.code := ESCAPE domKeys |}
     = (Dropdown.setExpanded (Some false) st, true)) ∧
  (∀ target key,
     target = "text" ∨ target = "button" →
     key = SPACE domKeys ∨ key = ENTER domKeys →
     Dropdown.keyDown domKeys st
       {| Dropdown.targetType := Some target; Dropdown.code := key |}
     = (st, false)) ∧
  (∀ e,
     Dropdown.code e = ENTER domKeys ∨ Dropdown.code e = SPACE domKeys
     ∨ Dropdown.code e = ARROW_DOWN domKeys →
     (Dropdown.targetType e ≠ Some "text" ∧ Dropdown.targetType e ≠ Some "button")
     ∨ (Dropdown.code e ≠ SPACE domKeys ∧ Dropdown.code e ≠ ENTER domKeys) →
     Dropdown.keyDown domKeys st e = (Dropdown.setExpanded (Some true) st, true)) ∧
  (∀ e,
     Dropdown.code e ∉ Dropdown.registeredKeys domKeys →
     Dropdown.keyDown domKeys st e = (st, false)).
Proof.
  cbv zeta.
  apply (dropdown_keys domKeys (Dropdown.mount Dropdown.uncontrolled true)).
  - discriminate.
  - discriminate.
  - discriminate.
  - reflexivity.
Defined.

Example dropdown_unregistered_key :
  Dropdown.keyDown domKeys
    (Dropdown.setExpanded (Some false) (Dropdown.mount Dropdown.uncontrolled true))
    {| Dropdown.targetType := None; Dropdown.code := "KeyA" |}
  = (Dropdown.setExpanded (Some false) (Dropdown.mount Dropdown.uncontrolled true), false).
Proof. by vm_compute. Qed.

(** X15. A click on the clear button, with the effect on the selection that
    follows it: the empty selection is handed to the host, after which the
    clear button is no longer rendered; the candidates are untouched.  The
    dropdown ends closed when it manages its own expansion or
    [closeOnChangedValue] is on; a host-controlled dropdown with
    [closeOnChangedValue] off keeps its state. *)
Theorem dropdown_clear_selected (c : MultiSelect) (d : Dropdown.Props)
    (st : Dropdown.State) :
  value (fst (Dropdown.clearClicked c d st)) = [] ∧
  options (fst (Dropdown.clearClicked c d st)) = options c ∧
  Dropdown.clearButtonShown (fst (Dropdown.clearClicked c d st)) d = false ∧
  (Dropdown.isInternalExpand st = true ∨ Dropdown.closeOnChangedValue d = true →
   Dropdown.expanded (snd (Dropdown.clearClicked c d st)) = Some false ∧
   Dropdown.panelShown (snd (Dropdown.clearClicked c d st)) = false) ∧
  (Dropdown.isInternalExpand st = false → Dropdown.closeOnChangedValue d = false →
   snd (Dropdown.clearClicked c d st) = st).
Proof.
  unfold Dropdown.clearClicked, Dropdown.handleClearSelected, Dropdown.valueEffect,
    Dropdown.panelShown.
  simpl. split; [done|]. split; [done|]. split; [done|]. split.
  - intros [Hint|Hclose].
    + rewrite Hint. by destruct (Dropdown.closeOnChangedValue d).
    + rewrite Hclose. by destruct (Dropdown.isInternalExpand st).
  - by intros -> ->.
Qed.

Lemma dropdown_panelFocus_expanded focused st :
  Dropdown.expanded (Dropdown.panelFocus focused st) = Dropdown.expanded st ∧
  Dropdown.isInternalExpand (Dropdown.panelFocus focused st)
  = Dropdown.isInternalExpand st.
Proof.
  unfold Dropdown.panelFocus, Dropdown.handleFocus.
  destruct (Dropdown.panelShown st && focused); [|done].
  by destruct (negb (Dropdown.hasFocus st)).
Qed.

(** X16. The dropdown after its first render, whether or not the panel took
    the focus.  When [defaultIsOpen] is not given and [isOpen] is a boolean,
    the host controls the expansion and [expanded] is [isOpen], whatever
    [closeOnChangedValue] says.  Otherwise the dropdown manages its own
    expansion and its panel is shown iff [defaultIsOpen] is true and
    [closeOnChangedValue] is off: with [closeOnChangedValue] on, the first
    run of the effect on the selection closes a dropdown that was to start
    open. *)
Theorem dropdown_mount (d : Dropdown.Props) (focused : bool) :
  (∀ b, Dropdown.defaultIsOpen d = None → Dropdown.isOpen d = Some b →
        Dropdown.isInternalExpand (Dropdown.mount d focused) = false ∧
        Dropdown.expanded (Dropdown.mount d focused) = Some b) ∧
  ((is_Some (Dropdown.defaultIsOpen d) ∨ Dropdown.isOpen d = None) →
   Dropdown.isInternalExpand (Dropdown.mount d focused) = true ∧
   Dropdown.panelShown (Dropdown.mount d focused)
   = negb (Dropdown.closeOnChangedValue d) && truthy (Dropdown.defaultIsOpen d)).
Proof.
  unfold Dropdown.mount.
  destruct (dropdown_panelFocus_expanded focused
              (Dropdown.openEffect d (Dropdown.valueEffect d
                 (Dropdown.panelFocus focused (Dropdown.initial d))))) as [Hexp Hint].
  unfold Dropdown.panelShown at 1. rewrite Hexp, Hint. clear Hexp Hint.
  destruct (dropdown_panelFocus_expanded focused (Dropdown.initial d)) as [Hexp Hint].
  destruct (Dropdown.panelFocus focused (Dropdown.initial d)) as [internal exp focus].
  simpl in Hexp, Hint. subst internal exp.
  unfold Dropdown.openEffect, Dropdown.valueEffect. simpl.
  split.
  - intros b -> ->. by destruct (Dropdown.closeOnChangedValue d).
  - intros [[b Hdefault]|Hopen].
    + rewrite Hdefault. by destruct (Dropdown.closeOnChangedValue d).
    + rewrite Hopen.
      by destruct (Dropdown.defaultIsOpen d), (Dropdown.closeOnChangedValue d).
Qed.

Example dropdown_mount_cases :
  Dropdown.panelShown (Dropdown.mount Dropdown.uncontrolled true) = true ∧
  Dropdown.hasFocus (Dropdown.mount Dropdown.uncontrolled true) = true ∧
  Dropdown.panelShown (Dropdown.mount Dropdown.closing true) = false ∧
  Dropdown.mount (Dropdown.controlled true) true
  = {| Dropdown.isInternalExpand := false; Dropdown.expanded := Some true;
       Dropdown.hasFocus := true |} ∧
  Dropdown.mount (Dropdown.controlled false) true
  = {| Dropdown.isInternalExpand := false; Dropdown.expanded := Some false;
       Dropdown.hasFocus := false |}.
Proof. by vm_compute. Qed.

(** * Clearing the search *)

Lemma applyQuery_default_query c q p :
  customFilterOptions c = None →
  searchTextForFilter (local (applyQuery c q p)) = q.
Proof.
  intros Hdefault. unfold applyQuery. case_bool_decide as Hsame; [done|].
  unfold runFilterEffect, getFilteredOptions. by rewrite Hdefault.
Qed.

(** X17. With the default filter, clearing the search at any moment empties
    the text shown and the text filtered by, and the panel shows every
    candidate again, with no filter request left in flight. *)
Theorem clear_shows_all_candidates (c : MultiSelect) (events : list Event) :
  customFilterOptions c = None →
  searchText (local (step c (run c (mount c) events) ClearClicked)) = "" ∧
  searchTextForFilter (local (step c (run c (mount c) events) ClearClicked)) = "" ∧
  filteredOptions (local (step c (run c (mount c) events) ClearClicked)) = options c ∧
  inflight (step c (run c (mount c) events) ClearClicked) = [].
Proof.
  intros Hdefault.
  pose proof (run_default c Hdefault events (mount c) (mount_default c Hdefault))
    as Hbefore.
  destruct (step_default c Hdefault _ ClearClicked Hbefore) as [Hidle Hview].
  assert (Hquery : searchTextForFilter
                     (local (step c (run c (mount c) events) ClearClicked)) = "").
  { simpl. by apply applyQuery_default_query. }
  split; [done|]. split; [done|]. split; [|done].
  by rewrite Hview, Hquery.
Qed.

(** X17, instance: the user has typed "c" and the filter has run. *)
Lemma clear_shows_all_candidates_witness :
  let c := Sample.ctx [Sample.optA; Sample.optB; Sample.optC] [] None in
  let events := [KeyTyped "c"; DebounceElapsed] in
  filteredOptions (local (run c (mount c) events)) = [Sample.optC] ∧
  searchText (local (step c (run c (mount c) events) ClearClicked)) = "" ∧
  searchTextForFilter (local (step c (run c (mount c) events) ClearClicked)) = "" ∧
  filteredOptions (local (step c (run c (mount c) events) ClearClicked)) = options c ∧
  inflight (step c (run c (mount c) events) ClearClicked) = [].
Proof.
  cbv zeta. split; [by vm_compute|].
  exact (clear_shows_all_candidates
           (Sample.ctx [Sample.optA; Sample.optB; Sample.optC] [] None)
           [KeyTyped "c"; DebounceElapsed] eq_refl).
Defined.
